(** * The TicTacToe coordinator of kdapp-mcp-server

    A shallow embedding of [examples/kdapp-mcp-server/tictactoe_coordinator.py]:
    the values [json.loads] produces, the response policy of [execute_move]
    and [extract_tx_hash], the line reader of [send_mcp_request], the board
    functions and the body of the loop of [play_game]. *)

From Stdlib Require Import ZArith QArith Ascii String.
From stdpp Require Import base decidable option list strings gmap finite.

#[local] Set Warnings "-register-all".

Local Open Scope string_scope.
Local Open Scope Z_scope.

(** ** Python values *)

(** What the interpreter can raise inside the modelled functions. *)
Inductive exn : Type :=
| TimeoutError
| IndexError.

(** The result of running a piece of Python against a finite record of what
    the outside world did: it returns, it raises, or the record ends while the
    code is still waiting for the outside world ([Waiting]). *)
Inductive run (A : Type) : Type :=
| Done (a : A)
| Raised (e : exn)
| Waiting.
Arguments Done {A} a.
Arguments Raised {A} e.
Arguments Waiting {A}.

#[global] Instance run_ret : MRet run := fun A a => Done a.

#[global] Instance run_bind : MBind run := fun A B k m =>
  match m with
  | Done a => k a
  | Raised e => Raised e
  | Waiting => Waiting
  end.

(** A Python float as [json.loads] can produce one: a finite value, or one of
    the literals Infinity, -Infinity and NaN that the decoder accepts. *)
Inductive pyfloat : Type :=
| FFinite (q : Q)
| FInf (negative : bool)
| FNaN.

(** The values [json.loads] returns.  A [dict] is a finite map on string
    keys; every [ascii] of a string stands for one character of the [str]. *)
Inductive pyval : Type :=
| PNone
| PBool (b : bool)
| PInt (n : Z)
| PFloat (f : pyfloat)
| PStr (s : string)
| PList (l : list pyval)
| PDict (d : gmap string pyval).

(** Truth value of an object, as [if x] and [not x] test it. *)
Definition truthy (v : pyval) : bool :=
  match v with
  | PNone => false
  | PBool b => b
  | PInt n => negb (n =? 0)
  | PFloat (FFinite q) => negb (Qeq_bool q 0)
  | PFloat _ => true
  | PStr s => negb (String.eqb s EmptyString)
  | PList l => match l with [] => false | _ => true end
  | PDict d => negb (bool_decide (d = ∅))
  end.

(** [key in d] for a dict [d]. *)
Definition has_key (key : string) (d : gmap string pyval) : bool :=
  bool_decide (is_Some (d !! key)).

(** [d.get(key)]: the value, or [None] when the key is absent. *)
Definition dict_get (key : string) (d : gmap string pyval) : pyval :=
  default PNone (d !! key).

(** ** extract_tx_hash *)

(** [for key in keys: if key in result and result[key]: return result[key]] *)
Fixpoint first_truthy_field (keys : list string) (result : gmap string pyval)
  : option pyval :=
  match keys with
  | [] => None
  | key :: keys' =>
      match result !! key with
      | Some v => if truthy v then Some v else first_truthy_field keys' result
      | None => first_truthy_field keys' result
      end
  end.

(** [for key in keys: if key in receipt: return receipt[key]] *)
Fixpoint first_present_field (keys : list string) (receipt : gmap string pyval)
  : option pyval :=
  match keys with
  | [] => None
  | key :: keys' =>
      match receipt !! key with
      | Some v => Some v
      | None => first_present_field keys' receipt
      end
  end.

Definition direct_keys : list string :=
  ["tx_hash"; "txid"; "tx"; "transaction"; "hash"].

Definition receipt_keys : list string := ["tx_hash"; "txid"; "hash"].

(** The part of [extract_tx_hash] that runs when the result is a dict;
    [None] when neither loop returns. *)
Definition extract_from_dict (result : gmap string pyval) : option pyval :=
  match first_truthy_field direct_keys result with
  | Some v => Some v
  | None =>
      match result !! "receipt" with
      | Some (PDict receipt) => first_present_field receipt_keys receipt
      | _ => None
      end
  end.

(** [extract_tx_hash(response)].  Python's [None] is the value [PNone]; no
    operation in the body can raise on a decoded JSON value, so the
    [except] branch is never taken. *)
Definition extract_tx_hash (response : pyval) : pyval :=
  match response with
  | PDict resp =>
      let result := dict_get "result" resp in
      if negb (truthy result) then PNone
      else
        match result with
        | PDict r =>
            match extract_from_dict r with
            | Some v => v
            | None => PNone
            end
        | PStr s => if (8 <=? Z.of_nat (String.length s)) then PStr s else PNone
        | _ => PNone
        end
  | _ => PNone
  end.

(** ** The response policy of execute_move *)

(** Lines 243-261 of [execute_move]: the verdict on a decoded response. *)
Definition move_accepted (require_onchain : bool) (response : pyval) : bool :=
  match response with
  | PDict resp =>
      if negb (has_key "error" resp) && has_key "result" resp then
        if (match dict_get "result" resp with PNone => true | _ => false end)
           && require_onchain
        then false
        else if require_onchain then
          if negb (truthy (extract_tx_hash response)) then false else true
        else true
      else false
  | _ => false
  end.

(** ** send_mcp_request *)

(** [str.isspace] on the characters below 256: tab to carriage return, the
    four separators 28-31, the space, the next-line character 133 and the
    no-break space 160. *)
Definition is_space (a : ascii) : bool :=
  let n := N_of_ascii a in
  (((9 <=? n) && (n <=? 13)) || ((28 <=? n) && (n <=? 32))
   || (n =? 133) || (n =? 160))%N.

Fixpoint lstrip (s : string) : string :=
  match s with
  | EmptyString => EmptyString
  | String a s' => if is_space a then lstrip s' else s
  end.

Fixpoint rstrip (s : string) : string :=
  match s with
  | EmptyString => EmptyString
  | String a s' =>
      match rstrip s' with
      | EmptyString => if is_space a then EmptyString else String a EmptyString
      | r => String a r
      end
  end.

(** [line.strip()] *)
Definition py_strip (s : string) : string := rstrip (lstrip s).

(** What one call of [send_mcp_request] sees after it has written and flushed
    its request: one entry per turn of the [while True] loop, holding the
    value of [time.time() - start] (in seconds) at the deadline test and the
    string that [readline] then returns (empty when it has no line). *)
Definition rpc_trace : Type := list (Q * string).

Section Rpc.

(** [json.loads], of the standard library: [None] where it raises. *)
Variable json_loads : string -> option pyval.

Fixpoint send_mcp_request (trace : rpc_trace) : run pyval :=
  match trace with
  | [] => Waiting
  | (elapsed, response_line) :: trace' =>
      if negb (Qle_bool elapsed 5) then Raised TimeoutError
      else if String.eqb response_line EmptyString then send_mcp_request trace'
      else
        match json_loads (py_strip response_line) with
        | Some parsed => Done parsed
        | None => send_mcp_request trace'
        end
  end.

End Rpc.

(** ** The board *)

Inductive mark : Type := X | O.

(** A cell holds [None] or the mark of a player. *)
Definition cell : Type := option mark.

Definition board : Type := list (list cell).

#[global] Instance mark_eq_dec : EqDecision mark.
Proof. solve_decision. Defined.

(** [l[i]] with Python's rule for negative indices. *)
Definition py_index {A : Type} (l : list A) (i : Z) : run A :=
  let n := Z.of_nat (length l) in
  let j := if i <? 0 then i + n else i in
  if (0 <=? j) && (j <? n) then
    match l !! Z.to_nat j with
    | Some x => Done x
    | None => Raised IndexError
    end
  else Raised IndexError.

(** [l[i] = x] *)
Definition py_setitem {A : Type} (l : list A) (i : Z) (x : A) : run (list A) :=
  let n := Z.of_nat (length l) in
  let j := if i <? 0 then i + n else i in
  if (0 <=? j) && (j <? n) then Done (<[Z.to_nat j := x]> l)
  else Raised IndexError.

(** [self.game_board[i][j]] *)
Definition board_get (b : board) (i j : Z) : run cell :=
  row ← py_index b i; py_index row j.

(** [update_board]: [self.game_board[row][col] = player] *)
Definition update_board (b : board) (row col : Z) (player : mark) : run board :=
  r ← py_index b row;
  r' ← py_setitem r col (Some player);
  py_setitem b row r'.

(** ** check_winner *)

Inductive verdict : Type :=
| Winner (m : mark)
| Draw.

(** [a == b == c and a is not None], giving [a] when it holds and [None]
    when it does not; [c] is read only when [a == b]. *)
Definition same_mark (ca cb cc : run cell) : run cell :=
  a ← ca;
  b ← cb;
  if bool_decide (a = b) then
    c ← cc;
    if bool_decide (b = c) then mret a else mret None
  else mret None.

(** [for row in self.game_board: ...] *)
Fixpoint winning_row (rows : list (list cell)) : run cell :=
  match rows with
  | [] => mret None
  | row :: rows' =>
      w ← same_mark (py_index row 0) (py_index row 1) (py_index row 2);
      match w with
      | Some m => mret (Some m)
      | None => winning_row rows'
      end
  end.

(** [for col in range(3): ...] *)
Fixpoint winning_col (b : board) (cols : list Z) : run cell :=
  match cols with
  | [] => mret None
  | col :: cols' =>
      w ← same_mark (board_get b 0 col) (board_get b 1 col) (board_get b 2 col);
      match w with
      | Some m => mret (Some m)
      | None => winning_col b cols'
      end
  end.

Definition range3 : list Z := [0; 1; 2].

(** [all(cell is not None for row in self.game_board for cell in row)] *)
Definition is_full (b : board) : bool :=
  forallb (forallb (fun c : cell => bool_decide (c <> None))) b.

Definition check_winner (b : board) : run (option verdict) :=
  w ← winning_row b;
  match w with
  | Some m => mret (Some (Winner m))
  | None =>
      w ← winning_col b range3;
      match w with
      | Some m => mret (Some (Winner m))
      | None =>
          w ← same_mark (board_get b 0 0) (board_get b 1 1) (board_get b 2 2);
          match w with
          | Some m => mret (Some (Winner m))
          | None =>
              w ← same_mark (board_get b 0 2) (board_get b 1 1) (board_get b 2 0);
              match w with
              | Some m => mret (Some (Winner m))
              | None => mret (if is_full b then Some Draw else None)
              end
          end
      end
  end.

(** ** get_default_move and is_valid_move_candidate *)

(** The pairs [(i, j)] in the order of [for i in range(3): for j in range(3)]. *)
Definition all_cells : list (Z * Z) :=
  i ← range3; j ← range3; [(i, j)].

(** A loop that appends the elements passing a test that reads the board. *)
Fixpoint filter_run {A : Type} (p : A -> run bool) (l : list A) : run (list A) :=
  match l with
  | [] => Done []
  | x :: l' =>
      keep ← p x;
      rest ← filter_run p l';
      mret (if keep : bool then x :: rest else rest)
  end.

(** A loop that stops ([break]) at the first element passing the test. *)
Fixpoint find_run {A : Type} (p : A -> run bool) (l : list A) : run (option A) :=
  match l with
  | [] => mret None
  | x :: l' =>
      hit ← p x;
      if hit : bool then mret (Some x) else find_run p l'
  end.

Definition is_empty_at (b : board) (ij : Z * Z) : run bool :=
  c ← board_get b ij.1 ij.2; mret (bool_decide (c = None)).

(** [random.choice(seq)]: the element at a drawn index below [len(seq)];
    the draw is the argument [rnd], reduced modulo the length.  On an empty
    sequence [random.choice] raises [IndexError]. *)
Definition random_choice {A : Type} (rnd : nat) (seq : list A) : run A :=
  match seq with
  | [] => Raised IndexError
  | _ => py_index seq (Z.of_nat (rnd `mod` length seq)%nat)
  end.

Definition center : list (Z * Z) := [(1, 1)].
Definition corners : list (Z * Z) := [(0, 0); (0, 2); (2, 0); (2, 2)].
Definition edges : list (Z * Z) := [(0, 1); (1, 0); (1, 2); (2, 1)].

(** [[cell for cell in group if cell in empty_cells]] *)
Definition available (group empty_cells : list (Z * Z)) : list (Z * Z) :=
  filter (fun ij => ij ∈ empty_cells) group.

Definition get_default_move (rnd : nat) (b : board) : run (Z * Z) :=
  empty_cells ← filter_run (is_empty_at b) all_cells;
  match empty_cells with
  | [] => mret (0, 0)
  | _ =>
      let available_center := available center empty_cells in
      let available_corners := available corners empty_cells in
      let available_edges := available edges empty_cells in
      match available_center, available_corners, available_edges with
      | _ :: _, _, _ => random_choice rnd available_center
      | [], _ :: _, _ => random_choice rnd available_corners
      | [], [], _ :: _ => random_choice rnd available_edges
      | [], [], [] => random_choice rnd empty_cells
      end
  end.

(** [is_valid_move_candidate(row, col)]; a coordinate is an [int] or [None],
    and whatever the body raises is caught and answered with [False]. *)
Definition is_valid_move_candidate (b : board) (row col : option Z) : bool :=
  match row, col with
  | Some r, Some c =>
      if negb ((0 <=? r) && (r <=? 2) && ((0 <=? c) && (c <=? 2))) then false
      else
        match board_get b r c with
        | Done cl => bool_decide (cl = None)
        | _ => false
        end
  | _, _ => false
  end.

(** ** The loop of play_game *)

(** [get_move_from_agent1] and [get_move_from_agent2] differ in the endpoint
    and the prompt only.  [reply] is the pair [(row, col)] read out of the
    agent's answer, [None] when the request, the status test, the search for
    the JSON object or its decoding does not get that far. *)
Definition get_move_from_agent (reply : option (option Z * option Z))
    (rnd : nat) (b : board) : run (Z * Z) :=
  match reply with
  | Some (Some row, Some col) =>
      if is_valid_move_candidate b (Some row) (Some col) then mret (row, col)
      else get_default_move rnd b
  | _ => get_default_move rnd b
  end.

(** Lines 629-641: the default move, replaced by the first empty cell other
    than [(row, col)] when it repeats the move just refused. *)
Definition fallback_move (rnd : nat) (b : board) (row col : Z) : run (Z * Z) :=
  d ← get_default_move rnd b;
  if bool_decide (d.1 = row) && bool_decide (d.2 = col) then
    alt ← find_run (fun ij =>
             empty ← is_empty_at b ij;
             mret (empty && negb (bool_decide (ij.1 = row) && bool_decide (ij.2 = col))))
           all_cells;
    mret (default d alt)
  else mret d.

Record coordinator : Type := Coordinator {
  game_board : board;
  current_player : mark;
  require_onchain : bool
}.

(** The local variables of [play_game]. *)
Record loop_vars : Type := LoopVars {
  move_count : nat;
  consecutive_failures : nat;
  last_move : option (Z * Z)
}.

(** The command [execute_move] sends in its [kdapp_execute_command] request
    (the episode id is the same in every request of a game). *)
Record command : Type := Command {
  cmd_player : mark;
  cmd_row : Z;
  cmd_col : Z;
  cmd_signer : string
}.

(** What the outside world does during one turn of the loop: the agent's
    answer and the draw used when it is not usable, what the server prints
    in answer to the move submitted, and the draw and the server's output
    for the second submission. *)
Record ply_env : Type := PlyEnv {
  agent_reply : option (option Z * option Z);
  rnd_agent : nat;
  rpc_move : command -> rpc_trace;
  rnd_fallback : nat;
  rpc_fallback : command -> rpc_trace
}.

(** How one turn of the loop ends: by [break], or at the end of the body. *)
Inductive step : Type :=
| Break
| Next (c : coordinator) (v : loop_vars).

(** ["O" if self.current_player == "X" else "X"] *)
Definition switch_player (p : mark) : mark :=
  match p with X => O | O => X end.

Definition signer_of (p : mark) : string :=
  match p with X => "agent1" | O => "agent2" end.

Section Game.

Variable json_loads : string -> option pyval.

(** [execute_move]: the command goes to the server, whose output while the
    call waits is [server command]; the verdict is read off the decoded
    response. *)
Definition execute_move (c : coordinator) (player : mark) (row col : Z)
    (signer : string) (server : command -> rpc_trace) : run bool :=
  response ← send_mcp_request json_loads (server (Command player row col signer));
  mret (move_accepted (require_onchain c) response).

(** The branch taken when [execute_move] returned [True]. *)
Definition accept_move (c : coordinator) (v : loop_vars) (row col : Z) : run step :=
  b' ← update_board (game_board c) row col (current_player c);
  mret (Next (Coordinator b' (switch_player (current_player c)) (require_onchain c))
             (LoopVars (S (move_count v)) 0 (Some (row, col)))).

Definition loop_body (e : ply_env) (c : coordinator) (v : loop_vars) : run step :=
  winner ← check_winner (game_board c);
  match winner with
  | Some _ => mret Break
  | None =>
      '(row, col) ← get_move_from_agent (agent_reply e) (rnd_agent e) (game_board c);
      let signer := signer_of (current_player c) in
      ok ← execute_move c (current_player c) row col signer (rpc_move e);
      if ok : bool then accept_move c v row col
      else
        let v1 := LoopVars (move_count v) (S (consecutive_failures v)) (Some (row, col)) in
        '(default_row, default_col) ← fallback_move (rnd_fallback e) (game_board c) row col;
        ok' ← execute_move c (current_player c) default_row default_col signer (rpc_fallback e);
        if ok' : bool then accept_move c v1 default_row default_col
        else
          mret (Next c (LoopVars (move_count v1) (consecutive_failures v1)
                                 (Some (default_row, default_col))))
  end.

Definition max_moves : nat := 9.
Definition max_consecutive_failures : nat := 3.

(** The [while] loop of [play_game], one [ply_env] per turn. *)
Fixpoint game_loop (envs : list ply_env) (c : coordinator) (v : loop_vars)
  : run (coordinator * loop_vars) :=
  if bool_decide (move_count v < max_moves)%nat
     && bool_decide (consecutive_failures v < max_consecutive_failures)%nat
  then
    match envs with
    | [] => Waiting
    | e :: envs' =>
        s ← loop_body e c v;
        match s with
        | Break => mret (c, v)
        | Next c' v' => game_loop envs' c' v'
        end
    end
  else mret (c, v).

End Game.

Definition empty_board : board := replicate 3 (replicate 3 None).

(** The state in which the loop is entered. *)
Definition initial_coordinator (require_onchain : bool) : coordinator :=
  Coordinator empty_board X require_onchain.

Definition initial_vars : loop_vars := LoopVars 0 0 None.

(** ** Sample data *)

(** A JSON text needs the double quote, which is written by its code. *)
Definition quoted (s : string) : string :=
  String "034" (s ++ String "034" EmptyString).

Definition line_null_result : string :=
  "{" ++ quoted "result" ++ ": null}".

Definition line_txid_result : string :=
  "{" ++ quoted "result" ++ ": {" ++ quoted "txid" ++ ": " ++ quoted "9f3c2ab47d10" ++ "}}".

Definition line_error_and_result : string :=
  "{" ++ quoted "error" ++ ": " ++ quoted "not your turn" ++ ", "
      ++ quoted "result" ++ ": " ++ quoted "9f3c2ab47d10" ++ "}".

Definition resp_null_result : gmap string pyval := {[ "result" := PNone ]}.

Definition resp_txid_result : gmap string pyval :=
  {[ "result" := PDict {[ "txid" := PStr "9f3c2ab47d10" ]} ]}.

Definition resp_error_and_result : gmap string pyval :=
  {[ "error" := PStr "not your turn"; "result" := PStr "9f3c2ab47d10" ]}.

(** The values of [json.loads] on the three lines above; every other text
    is treated as one it refuses (a line of the build log, say). *)
Definition sample_loads (s : string) : option pyval :=
  if String.eqb s line_null_result then Some (PDict resp_null_result)
  else if String.eqb s line_txid_result then Some (PDict resp_txid_result)
  else if String.eqb s line_error_and_result then Some (PDict resp_error_and_result)
  else None.

(** A server that prints one line of log and then the given line. *)
Definition server_printing (line : string) (_ : command) : rpc_trace :=
  [(1 # 10, "   Compiling kdapp-mcp-server v0.1.0" ++ String "010" EmptyString);
   (3 # 10, EmptyString);
   (1 # 2, line ++ String "010" EmptyString)]%Q.

(** A server that prints log lines only, until the deadline has passed. *)
Definition server_silent (_ : command) : rpc_trace :=
  [(1 # 10, "   Compiling kdapp-mcp-server v0.1.0" ++ String "010" EmptyString);
   (2 # 1, EmptyString);
   (51 # 10, EmptyString)]%Q.

(** ** The search order of extract_tx_hash *)

(** [key] is the first key of [keys] whose value in [d] satisfies [P], and
    [v] is that value. *)
Definition first_hit (P : pyval -> Prop) (keys : list string)
    (d : gmap string pyval) (key : string) (v : pyval) : Prop :=
  exists pre post,
    keys = (pre ++ key :: post)%list /\ d !! key = Some v /\ P v /\
    forall k w, k ∈ pre -> d !! k = Some w -> ~ P w.

(** No key of [keys] has a value in [d] that satisfies [P]. *)
Definition no_hit (P : pyval -> Prop) (keys : list string)
    (d : gmap string pyval) : Prop :=
  forall k w, k ∈ keys -> d !! k = Some w -> ~ P w.

Definition is_truthy (v : pyval) : Prop := truthy v = true.
Definition is_present (v : pyval) : Prop := True.


(** A server whose output is at its end: [readline] returns the empty
    string at once, turn after turn, until the deadline has passed. *)
Definition server_gone (_ : command) : rpc_trace :=
  [(0, EmptyString); (5 # 2, EmptyString); (501 # 100, EmptyString)]%Q.

(** A turn of the [while True] loop that [send_mcp_request] passes over: the
    deadline test lets it through, and [readline] gives nothing or a line
    that [json.loads] refuses. *)
Definition skipped (json_loads : string -> option pyval) (ev : Q * string) : Prop :=
  (ev.1 <= 5)%Q /\ (ev.2 = EmptyString \/ json_loads (py_strip ev.2) = None).

(** ** Vocabulary of the board properties *)

#[global] Instance exn_eq_dec : EqDecision exn.
Proof. solve_decision. Defined.

#[global] Instance run_eq_dec {A : Type} `{EqDecision A} : EqDecision (run A).
Proof. solve_decision. Defined.

#[global] Instance verdict_eq_dec : EqDecision verdict.
Proof. solve_decision. Defined.

#[global] Instance mark_finite : Finite mark.
Proof.
  refine {| enum := [X; O] |}.
  - apply NoDup_cons. split; [by intros ?%list_elem_of_singleton|].
    apply NoDup_singleton.
  - intros []; [left | right; left].
Defined.

(** The shape [__init__] gives the board: three rows of three cells. *)
Definition board3x3 (b : board) : Prop :=
  length b = 3%nat /\ Forall (fun row => length row = 3%nat) b.

Definition grid (c00 c01 c02 c10 c11 c12 c20 c21 c22 : cell) : board :=
  [[c00; c01; c02]; [c10; c11; c12]; [c20; c21; c22]].

(** The cell at [ij] is empty. *)
Definition empty_at (b : board) (ij : Z * Z) : Prop :=
  board_get b ij.1 ij.2 = Done None.

#[global] Instance empty_at_dec b ij : Decision (empty_at b ij).
Proof. unfold empty_at. apply _. Defined.

(** The empty cells, in the order of the two nested loops. *)
Definition empties (b : board) : list (Z * Z) := filter (empty_at b) all_cells.

(** The three rows, the three columns and the two diagonals. *)
Definition lines : list (list (Z * Z)) :=
  [ [(0, 0); (0, 1); (0, 2)]; [(1, 0); (1, 1); (1, 2)]; [(2, 0); (2, 1); (2, 2)];
    [(0, 0); (1, 0); (2, 0)]; [(0, 1); (1, 1); (2, 1)]; [(0, 2); (1, 2); (2, 2)];
    [(0, 0); (1, 1); (2, 2)]; [(0, 2); (1, 1); (2, 0)] ].

(** Every cell of [line] holds the mark [m]. *)
Definition occupies (b : board) (m : mark) (line : list (Z * Z)) : Prop :=
  Forall (fun ij => board_get b ij.1 ij.2 = Done (Some m)) line.

(** Some line is held by [m]. *)
Definition has_line (b : board) (m : mark) : Prop := Exists (occupies b m) lines.

Definition filled (b : board) (ij : Z * Z) : Prop :=
  exists m, board_get b ij.1 ij.2 = Done (Some m).

Definition all_filled (b : board) : Prop := Forall (filled b) all_cells.

(** What [check_winner] has to return on [b]: a mark only if it holds a
    line, a mark whenever some line is held, that mark when it alone holds
    lines, [Draw] exactly on a full board without a held line, and nothing
    exactly on a board that is neither. *)
Definition winner_spec (b : board) (r : option verdict) : Prop :=
  (forall m, r = Some (Winner m) -> has_line b m)
  /\ ((exists m, has_line b m) -> exists m, r = Some (Winner m))
  /\ (forall m, has_line b m -> ~ has_line b (switch_player m) ->
        r = Some (Winner m))
  /\ (r = Some Draw <-> all_filled b /\ ~ exists m, has_line b m)
  /\ (r = None <-> ~ all_filled b /\ ~ exists m, has_line b m).

Definition check_winner_ok (b : board) : Prop :=
  match check_winner b with
  | Done r => winner_spec b r
  | _ => False
  end.

#[global] Instance occupies_dec b m line : Decision (occupies b m line).
Proof. unfold occupies. apply _. Defined.

#[global] Instance has_line_dec b m : Decision (has_line b m).
Proof. unfold has_line. apply _. Defined.

#[global] Instance filled_dec b ij : Decision (filled b ij).
Proof. unfold filled. apply _. Defined.

#[global] Instance all_filled_dec b : Decision (all_filled b).
Proof. unfold all_filled. apply _. Defined.

#[global] Instance winner_spec_dec b r : Decision (winner_spec b r).
Proof. unfold winner_spec. apply _. Defined.

#[global] Instance check_winner_ok_dec b : Decision (check_winner_ok b).
Proof. unfold check_winner_ok. destruct (check_winner b); apply _. Defined.

(** The board of the scenario, before and after X plays (0, 2). *)
Definition board_scenario : board :=
  grid (Some X) (Some X) None (Some O) (Some O) None None None None.

(** A board whose centre is taken and whose corners are all free. *)
Definition board_centre_taken : board :=
  grid None None None None (Some X) None None None None.

(** ** Vocabulary of the loop properties *)

Section PlySpec.

Variable json_loads : string -> option pyval.

(** The first and the second [execute_move] of a turn, for the move [mv]
    of the agent and the fallback [fb]. *)
Definition first_submission (e : ply_env) (c : coordinator) (mv : Z * Z) : run bool :=
  execute_move json_loads c (current_player c) mv.1 mv.2
    (signer_of (current_player c)) (rpc_move e).

Definition second_submission (e : ply_env) (c : coordinator) (fb : Z * Z) : run bool :=
  execute_move json_loads c (current_player c) fb.1 fb.2
    (signer_of (current_player c)) (rpc_fallback e).

(** The turn ends at the end of the body, in a state that satisfies [P]. *)
Definition ends_with (e : ply_env) (c : coordinator) (v : loop_vars)
    (P : coordinator -> loop_vars -> Prop) : Prop :=
  exists c' v', loop_body json_loads e c v = Done (Next c' v') /\ P c' v'.

(** The failure counter over one turn that starts from [c] and [v]: zero
    after an accepted move, first or second; one more than before when
    both submissions are refused; and at the ceiling the loop is left with
    the state as it is, whatever the board and whatever would come next. *)
Definition failure_counter_spec (e : ply_env) (c : coordinator) (v : loop_vars) : Prop :=
  exists mv fb,
    get_move_from_agent (agent_reply e) (rnd_agent e) (game_board c) = Done mv /\
    fallback_move (rnd_fallback e) (game_board c) mv.1 mv.2 = Done fb /\
    (first_submission e c mv = Done true ->
       ends_with e c v (fun _ v' => consecutive_failures v' = 0%nat)) /\
    (first_submission e c mv = Done false ->
     second_submission e c fb = Done true ->
       ends_with e c v (fun _ v' => consecutive_failures v' = 0%nat)) /\
    (first_submission e c mv = Done false ->
     second_submission e c fb = Done false ->
       ends_with e c v (fun c' v' =>
         consecutive_failures v' = S (consecutive_failures v) /\
         (consecutive_failures v' = max_consecutive_failures ->
            forall envs, game_loop json_loads envs c' v' = Done (c', v')))) /\
    (forall envs, (max_consecutive_failures <= consecutive_failures v)%nat ->
       game_loop json_loads envs c v = Done (c, v)).

(** The side to move over one turn: switched, once, after an accepted
    move, first or second; the same after two refusals. *)
Definition side_to_move_spec (e : ply_env) (c : coordinator) (v : loop_vars) : Prop :=
  exists mv fb,
    get_move_from_agent (agent_reply e) (rnd_agent e) (game_board c) = Done mv /\
    fallback_move (rnd_fallback e) (game_board c) mv.1 mv.2 = Done fb /\
    (first_submission e c mv = Done true ->
       ends_with e c v (fun c' _ =>
         current_player c' = switch_player (current_player c) /\
         current_player c' <> current_player c)) /\
    (first_submission e c mv = Done false ->
     second_submission e c fb = Done true ->
       ends_with e c v (fun c' _ =>
         current_player c' = switch_player (current_player c) /\
         current_player c' <> current_player c)) /\
    (first_submission e c mv = Done false ->
     second_submission e c fb = Done false ->
       ends_with e c v (fun c' _ => current_player c' = current_player c)).

End PlySpec.

(** A turn in which the server refuses both submissions with an error. *)
Definition env_refusing : ply_env :=
  PlyEnv None 0 (server_printing line_error_and_result)
         0 (server_printing line_error_and_result).

(** A turn in which the server answers the first submission with a
    transaction identifier. *)
Definition env_accepting : ply_env :=
  PlyEnv (Some (Some 1, Some 1)) 0 (server_printing line_txid_result)
         0 (server_printing line_txid_result).

(** ** Further sample data *)

(** A result whose receipt carries an empty tx_hash before a txid. *)
Definition result_shadowed_receipt : gmap string pyval :=
  {[ "status" := PStr "ok";
     "receipt" := PDict {[ "tx_hash" := PStr EmptyString;
                           "txid" := PStr "9f3c2ab47d10" ]} ]}.

Definition resp_shadowed_receipt : gmap string pyval :=
  {[ "result" := PDict result_shadowed_receipt ]}.

(** The reader of [test_move.py]: the loop of [SimpleTester.send_mcp_request],
    which differs from the coordinator's in its deadline of 10 seconds. *)
Fixpoint tester_send_mcp_request (json_loads : string -> option pyval)
    (trace : rpc_trace) : run pyval :=
  match trace with
  | [] => Waiting
  | (elapsed, response_line) :: trace' =>
      if negb (Qle_bool elapsed 10) then Raised TimeoutError
      else if String.eqb response_line EmptyString
      then tester_send_mcp_request json_loads trace'
      else
        match json_loads (py_strip response_line) with
        | Some parsed => Done parsed
        | None => tester_send_mcp_request json_loads trace'
        end
  end.

(** A server that answers after seven seconds. *)
Definition server_slow (line : string) (_ : command) : rpc_trace :=
  [(1 # 10, "   Compiling kdapp-mcp-server v0.1.0" ++ String "010" EmptyString);
   (7 # 1, line ++ String "010" EmptyString)]%Q.

(** ** format_board_for_prompt and print_board *)

Definition nl : string := String "010" EmptyString.

Definition mark_str (m : mark) : string :=
  match m with X => "X" | O => "O" end.

(** [if cell is None: row_str += " " else: row_str += cell] *)
Definition append_cell (row_str : string) (c : cell) : string :=
  match c with
  | None => row_str ++ " "
  | Some m => row_str ++ mark_str m
  end.

(** [for j, cell in enumerate(row): ...], from index [j] on; the loop is
    the same in [format_board_for_prompt] and in [print_board]. *)
Fixpoint format_cells (row_str : string) (j : nat) (row : list cell) : string :=
  match row with
  | [] => row_str
  | c :: row' =>
      let row_str := append_cell row_str c in
      let row_str := if (j <? 2)%nat then row_str ++ "|" else row_str in
      format_cells row_str (S j) row'
  end.

(** [for i, row in enumerate(self.game_board): ...] of
    [format_board_for_prompt], from index [i] on. *)
Fixpoint format_rows (board_str : string) (i : nat) (rows : list (list cell))
  : string :=
  match rows with
  | [] => board_str
  | row :: rows' =>
      let row_str := format_cells EmptyString 0 row in
      let board_str := board_str ++ (row_str ++ nl) in
      let board_str := if (i <? 2)%nat then board_str ++ ("-----" ++ nl)
                       else board_str in
      format_rows board_str (S i) rows'
  end.

Definition format_board_for_prompt (b : board) : string :=
  format_rows EmptyString 0 b.

(** [print(s)] on an output that holds [out] so far. *)
Definition py_print (out s : string) : string := out ++ (s ++ nl).

(** The outer loop of [print_board], from index [i] on. *)
Fixpoint print_rows (out : string) (i : nat) (rows : list (list cell)) : string :=
  match rows with
  | [] => out
  | row :: rows' =>
      let row_str := format_cells EmptyString 0 row in
      let out := py_print out row_str in
      let out := if (i <? 2)%nat then py_print out "-----" else out in
      print_rows out (S i) rows'
  end.

(** [print_board]: the text on the output after the call. *)
Definition print_board (out : string) (b : board) : string :=
  let out := py_print out (nl ++ "Current board:") in
  let out := print_rows out 0 b in
  py_print out EmptyString.

(** The character that stands for a cell in the text. *)
Definition cell_char (c : cell) : ascii :=
  match c with
  | None => " "%char
  | Some X => "X"%char
  | Some O => "O"%char
  end.

(** The number of cells of [b] that hold the mark [m]. *)
Definition count_mark (m : mark) (b : board) : nat :=
  sum_list_with (fun c : cell => if bool_decide (c = Some m) then 1%nat else 0%nat)
                (concat b).

(** What holds of the board and the counters at every test of the
    condition of the loop, in a game started from the empty board with X to
    move: the board has its shape, [move_count] is the number of marks on
    it, X has as many marks as O when X is to move and one more when O is,
    and the failure counter is at most its ceiling. *)
Definition game_invariant (c : coordinator) (v : loop_vars) : Prop :=
  board3x3 (game_board c) /\
  (count_mark X (game_board c) + count_mark O (game_board c))%nat = move_count v /\
  count_mark X (game_board c)
  = (count_mark O (game_board c)
     + match current_player c with X => 0 | O => 1 end)%nat /\
  (consecutive_failures v <= max_consecutive_failures)%nat.

(** The condition of the loop is false or the board is decided. *)
Definition loop_finished (c : coordinator) (v : loop_vars) : Prop :=
  (max_moves <= move_count v)%nat \/
  (max_consecutive_failures <= consecutive_failures v)%nat \/
  exists w, check_winner (game_board c) = Done (Some w).

(** The server answers every submission of the turn: neither call is left
    waiting at the end of the record. *)
Definition answers (json_loads : string -> option pyval) (e : ply_env) : Prop :=
  forall cmd,
    send_mcp_request json_loads (rpc_move e cmd) <> Waiting /\
    send_mcp_request json_loads (rpc_fallback e cmd) <> Waiting.

(** The number of turns the loop can still take. *)
Definition turns_left (v : loop_vars) : nat :=
  (3 * (max_moves - move_count v) - consecutive_failures v)%nat.

(** ** Start-up, start_game and play_game *)

(** The exceptions of the functions around the loop: those of [exn], and
    the ones raised by the start-up and by the handling of responses that
    are not dicts. *)
Inductive pyexn : Type :=
| Builtin (e : exn)
| RuntimeError
| TypeError
| KeyError
| AttributeError.

(** [run], with the larger set of exceptions. *)
Inductive outcome (A : Type) : Type :=
| Returned (a : A)
| Thrown (e : pyexn)
| Pending.
Arguments Returned {A} a.
Arguments Thrown {A} e.
Arguments Pending {A}.

#[global] Instance outcome_ret : MRet outcome := fun A a => Returned a.

#[global] Instance outcome_bind : MBind outcome := fun A B k m =>
  match m with
  | Returned a => k a
  | Thrown e => Thrown e
  | Pending => Pending
  end.

Definition lift {A : Type} (m : run A) : outcome A :=
  match m with
  | Done a => Returned a
  | Raised e => Thrown (Builtin e)
  | Waiting => Pending
  end.

(** [sub in s] for two strings. *)
Fixpoint contains (s sub : string) : bool :=
  String.prefix sub s ||
  match s with
  | EmptyString => false
  | String _ s' => contains s' sub
  end.

Definition readiness_markers : list string :=
  [ "connected to kaspa node successfully";
    "successfully connected to kaspa node";
    "continues in offline mode";
    "server continues in offline mode";
    "finished dev";
    "running `target" ].

(** The lower-case letter of an ASCII capital; every other character is
    left as it is. *)
Definition ascii_lower (a : ascii) : ascii :=
  let n := N_of_ascii a in
  if ((65 <=? n) && (n <=? 90))%N then ascii_of_N (n + 32) else a.

Fixpoint string_lower (s : string) : string :=
  match s with
  | EmptyString => EmptyString
  | String a s' => String (ascii_lower a) (string_lower s')
  end.

Section Startup.

(** [str.lower], of the standard library. *)
Variable lower : string -> string.

Variable json_loads : string -> option pyval.

(** The loop of [__init__] that waits for the server, on the record of its
    turns (the value of [time.time() - start_time] at the test of the
    condition, then the string returned by [readline]).  The result is the
    pair of [ready] and [offline_mode_detected] when the loop is left. *)
Fixpoint wait_for_server (trace : rpc_trace) : run (bool * bool) :=
  match trace with
  | [] => Waiting
  | (elapsed, line) :: trace' =>
      if negb (Qle_bool 90 elapsed) then
        if String.eqb line EmptyString then wait_for_server trace'
        else
          let low := lower (py_strip line) in
          if existsb (fun marker => contains low marker) readiness_markers
          then Done (true, contains low "offline mode")
          else wait_for_server trace'
      else Done (false, false)
  end.

(** The query for the public keys in [__init__], with its [try]: whatever
    the call raises is caught. *)
Definition fetch_pubkeys (trace : rpc_trace) : run (pyval * pyval) :=
  match send_mcp_request json_loads trace with
  | Done (PDict pk_resp) =>
      match dict_get "result" pk_resp with
      | PDict result =>
          Done (dict_get "agent1_pubkey" result, dict_get "agent2_pubkey" result)
      | _ => Done (PNone, PNone)
      end
  | Done _ => Done (PNone, PNone)
  | Raised _ => Done (PNone, PNone)
  | Waiting => Waiting
  end.

End Startup.

(** The fields of the coordinator beside the board, the side to move and
    the enforcement flag. *)
Record session : Type := Session {
  coord : coordinator;
  agent1_pubkey : pyval;
  agent2_pubkey : pyval;
  episode_id : pyval
}.

(** [__init__], up to the fields above: [startup] is what the server prints
    while it starts, [pubkeys] what it prints during the query for the
    keys.  When the wait ends without a marker, the rest of the server's
    output is read before [RuntimeError] is raised: [drain] is [Some rest]
    when that read comes back (the server has closed its output, or the read
    fails, which is caught) and [None] when the output stays open, in which
    case the read never comes back.  The key directories and key files are
    handled last; they do not touch these fields, and their file operations
    are taken to succeed. *)
Definition coordinator_init (lower : string -> string)
    (json_loads : string -> option pyval) (startup : rpc_trace)
    (drain : option string) (pubkeys : rpc_trace)
  : outcome session :=
  '(ready, offline_mode_detected) ← lift (wait_for_server lower startup);
  if negb ready then
    match drain with
    | Some remaining => Thrown RuntimeError
    | None => Pending
    end
  else
    '(a1, a2) ← lift (fetch_pubkeys json_loads pubkeys);
    mret (Session (Coordinator empty_board X (negb offline_mode_detected)) a1 a2 PNone).

(** [has_onchain_capability] *)
Definition has_onchain_capability (s : session) : bool := true.

(** ["result" in response] *)
Definition py_in (key : string) (v : pyval) : outcome bool :=
  match v with
  | PDict d => Returned (has_key key d)
  | PList l =>
      Returned (existsb (fun x => match x with
                                  | PStr s => String.eqb s key
                                  | _ => false
                                  end) l)
  | PStr s => Returned (contains s key)
  | _ => Thrown TypeError
  end.

(** [response["result"]] *)
Definition py_getitem (key : string) (v : pyval) : outcome pyval :=
  match v with
  | PDict d =>
      match d !! key with
      | Some x => Returned x
      | None => Thrown KeyError
      end
  | _ => Thrown TypeError
  end.

(** [a or b] *)
Definition py_or (a b : pyval) : pyval := if truthy a then a else b.

(** What the server prints in answer to the two requests of [start_game]:
    to [kdapp_start_episode], given the two participants, and to
    [kdapp_get_episode_state], given the episode id. *)
Record start_env : Type := StartEnv {
  rpc_start : pyval * pyval -> rpc_trace;
  rpc_state : pyval -> rpc_trace
}.

Section StartGame.

Variable json_loads : string -> option pyval.

Definition get_game_state (s : session) (server : pyval -> rpc_trace)
  : outcome pyval :=
  response ← lift (send_mcp_request json_loads (server (episode_id s)));
  found ← py_in "result" response;
  if found : bool then py_getitem "result" response
  else mret PNone.

(** [state.get('participants') or state.get('metadata', {}).get('participants')] *)
Definition state_participants (state : gmap string pyval) : outcome pyval :=
  let p := dict_get "participants" state in
  if truthy p then mret p
  else
    match default (PDict ∅) (state !! "metadata") with
    | PDict metadata => mret (dict_get "participants" metadata)
    | _ => Thrown AttributeError
    end.

(** [start_game]: the answer and the coordinator after the call. *)
Definition start_game (s : session) (agent1_addr agent2_addr : pyval)
    (e : start_env) : outcome (bool * session) :=
  if require_onchain (coord s) && negb (has_onchain_capability s)
  then mret (false, s)
  else
    let p1 := py_or (agent1_pubkey s) agent1_addr in
    let p2 := py_or (agent2_pubkey s) agent2_addr in
    response ← lift (send_mcp_request json_loads (rpc_start e (p1, p2)));
    found ← py_in "result" response;
    if found : bool then
      eid ← py_getitem "result" response;
      let s' := Session (coord s) (agent1_pubkey s) (agent2_pubkey s) eid in
      state ← get_game_state s' (rpc_state e);
      _ ← match state with
          | PDict st => if truthy state then state_participants st else mret PNone
          | _ => mret PNone
          end;
      mret (true, s')
    else mret (false, s).

(** The last line [play_game] prints. *)
Inductive report : Type :=
| FailedToStart
| GameDraw
| PlayerWins (m : mark)
| NoWinner.

(** [play_game]: the last line printed, with the coordinator at the end. *)
Definition play_game (s : session) (agent1_addr agent2_addr : pyval)
    (e : start_env) (envs : list ply_env) : outcome (report * session) :=
  '(started, s1) ← start_game s agent1_addr agent2_addr e;
  if negb started then mret (FailedToStart, s1)
  else
    '(c, _) ← lift (game_loop json_loads envs (coord s1) initial_vars);
    winner ← lift (check_winner (game_board c));
    let s2 := Session c (agent1_pubkey s1) (agent2_pubkey s1) (episode_id s1) in
    mret (match winner with
          | Some Draw => GameDraw
          | Some (Winner m) => PlayerWins m
          | None => NoWinner
          end, s2).

End StartGame.

(** A turn of the waiting loop of [__init__] that does not end it: the
    condition of the loop holds, and [readline] gives nothing or a line
    without any of the markers. *)
Definition not_ready (lower : string -> string) (ev : Q * string) : Prop :=
  (ev.1 < 90)%Q /\
  (ev.2 = EmptyString \/
   existsb (fun marker => contains (lower (py_strip ev.2)) marker)
           readiness_markers = false).

(** The output of a server that starts without a node. *)
Definition startup_offline : rpc_trace :=
  [(2 # 1, "   Compiling kdapp v0.1.0" ++ String "010" EmptyString);
   (40 # 1, "WARN Could not reach the node; Server continues in OFFLINE mode"
            ++ String "010" EmptyString)]%Q.

(** The output of a build that takes longer than the start-up waits. *)
Definition startup_too_slow : rpc_trace :=
  [(2 # 1, "   Compiling kdapp v0.1.0" ++ String "010" EmptyString);
   (90 # 1, "    Finished dev [unoptimized] target(s)" ++ String "010" EmptyString)]%Q.

(** The output of a server whose build ends before it reports the node. *)
Definition startup_build_finished : rpc_trace :=
  [(30 # 1, "    Finished dev [unoptimized] target(s)" ++ String "010" EmptyString);
   (31 # 1, "WARN Server continues in offline mode" ++ String "010" EmptyString)]%Q.

(** Lines and decoded values of the samples of [start_game]. *)
Definition line_only_error : string :=
  "{" ++ quoted "error" ++ ": " ++ quoted "unknown tool" ++ "}".

Definition line_state_metadata : string :=
  "{" ++ quoted "result" ++ ": {" ++ quoted "metadata" ++ ": "
      ++ quoted "pending" ++ "}}".

Definition resp_only_error : gmap string pyval :=
  {[ "error" := PStr "unknown tool" ]}.

Definition resp_state_metadata : gmap string pyval :=
  {[ "result" := PDict {[ "metadata" := PStr "pending" ]} ]}.

(** The values of [json.loads] on the lines of the samples, with the
    scalar texts null and 42. *)
Definition start_loads (s : string) : option pyval :=
  if String.eqb s line_only_error then Some (PDict resp_only_error)
  else if String.eqb s line_state_metadata then Some (PDict resp_state_metadata)
  else if String.eqb s "null" then Some PNone
  else if String.eqb s "42" then Some (PInt 42)
  else sample_loads s.

(** A server that prints the given line at once, whatever it is asked. *)
Definition answer_with {A : Type} (line : string) (_ : A) : rpc_trace :=
  [(1 # 10, line ++ String "010" EmptyString)]%Q.

Definition session0 (require_onchain : bool) : session :=
  Session (initial_coordinator require_onchain) PNone PNone PNone.

(** ** get_windows_host_ip *)

(** [s.split()]: the maximal runs of characters that are not white space.
    [tok] is the run being read, if any. *)
Fixpoint split_from (tok : option string) (s : string) : list string :=
  match s with
  | EmptyString =>
      match tok with
      | Some t => [t]
      | None => []
      end
  | String a s' =>
      if is_space a then
        match tok with
        | Some t => t :: split_from None s'
        | None => split_from None s'
        end
      else
        split_from (Some (default EmptyString tok ++ String a EmptyString)) s'
  end.

Definition py_split (s : string) : list string := split_from None s.

Definition localhost : string := "127.0.0.1".

(** The loop over the lines of the file; an [IndexError] of [split()[1]]
    is caught by the bare [except] around the loop. *)
Fixpoint scan_resolv (lines : list string) : string :=
  match lines with
  | [] => localhost
  | line :: lines' =>
      if String.prefix "nameserver" line then
        match py_split line with
        | _ :: address :: _ => address
        | _ => localhost
        end
      else scan_resolv lines'
  end.

(** [get_windows_host_ip]; [file] holds the lines of /etc/resolv.conf, and
    is [None] when the file cannot be opened. *)
Definition get_windows_host_ip (file : option (list string)) : string :=
  match file with
  | Some lines => scan_resolv lines
  | None => localhost
  end.

(** No character of [s] is white space. *)
Fixpoint no_space (s : string) : bool :=
  match s with
  | EmptyString => true
  | String a s' => negb (is_space a) && no_space s'
  end.

Definition resolv_conf_sample : list string :=
  [ "# generated by WSL" ++ String "010" EmptyString;
    "nameserver" ++ String "010" EmptyString;
    "nameserver 172.29.96.1" ++ String "010" EmptyString ].

(** ** Reads that block *)

(** [readline] on the pipe of the server does not come back before a line
    is there.  [arrivals] holds the lines the server prints, each with the
    time (in seconds since the loop was entered) at which it is complete,
    in the order of printing; the server keeps its output open after the
    last one.  The turns of a reading loop are then these: the test of a
    turn is made at the time [now] at which the read before it came back
    (the first one at once, the time the code itself takes being left out),
    and the read of the turn comes back with the next line whenever that
    line arrives.  After the last line there is no further turn: the read
    never comes back. *)
Fixpoint blocking_turns_from (now : Q) (arrivals : list (Q * string)) : rpc_trace :=
  match arrivals with
  | [] => []
  | (arrival, line) :: arrivals' =>
      (now, line) :: blocking_turns_from arrival arrivals'
  end.

Definition blocking_turns (arrivals : list (Q * string)) : rpc_trace :=
  blocking_turns_from 0 arrivals.

(** ** The answer of an agent *)

(** [.] of a pattern matches every character but the line feed. *)
Definition is_line_feed (a : ascii) : bool := (N_of_ascii a =? 10)%N.

(** The part [.*\\}] of the pattern, matched at the start of [s]: the
    longest run without a line feed that is followed by a backslash and a
    closing brace, with these two characters. *)
Fixpoint match_to_brace (s : string) : option string :=
  match s with
  | EmptyString => None
  | String a s' =>
      match (if is_line_feed a then None else match_to_brace s') with
      | Some m => Some (String a m)
      | None => if String.prefix "\}" s then Some "\}" else None
      end
  end.

(** [re.search(r'\\{.*\\}', content)]: the text of the leftmost match, if
    there is one.  The pattern asks for a backslash and an opening brace, so
    every match begins with a backslash. *)
Fixpoint re_search (content : string) : option string :=
  match content with
  | EmptyString => None
  | String a content' =>
      match (if String.prefix "\{" content
             then match content' with
                  | String _ rest => match_to_brace rest
                  | EmptyString => None
                  end
             else None) with
      | Some m => Some ("\{" ++ m)
      | None => re_search content'
      end
  end.

Section Agents.

Variable json_loads : string -> option pyval.

(** [int], of the built-ins: [None] where it raises. *)
Variable py_int : pyval -> option Z.

(** [int(move.get(key)) if key in move else None]; the outer [None] is an
    exception (of [in], of [get] or of [int]), caught by the [except] of
    the caller. *)
Definition move_coordinate (key : string) (move : pyval) : option (option Z) :=
  match move with
  | PDict d =>
      match d !! key with
      | Some v =>
          match py_int v with
          | Some n => Some (Some n)
          | None => None
          end
      | None => Some None
      end
  | PList l =>
      if existsb (fun x => match x with
                           | PStr s => String.eqb s key
                           | _ => false
                           end) l
      then None else Some None
  | PStr s => if contains s key then None else Some None
  | _ => None
  end.

(** The pair [(row, col)] that [get_move_from_agent1] and
    [get_move_from_agent2] read out of the text [content] of the agent's
    answer; [content] is [None] when the request fails, the status is not
    200 or the answer has no text at the expected place. *)
Definition agent_proposal (content : option string)
  : option (option Z * option Z) :=
  match content with
  | None => None
  | Some text =>
      match re_search text with
      | None => None
      | Some matched =>
          match json_loads matched with
          | None => None
          | Some move =>
              match move_coordinate "row" move with
              | None => None
              | Some row =>
                  match move_coordinate "col" move with
                  | None => None
                  | Some col => Some (row, col)
                  end
              end
          end
      end
  end.

(** [get_move_from_agent1], from the text of the answer on; the body of
    [get_move_from_agent2] is the same from there. *)
Definition get_move_from_agent1 (content : option string) (rnd : nat)
    (b : board) : run (Z * Z) :=
  get_move_from_agent (agent_proposal content) rnd b.

End Agents.

(** [int] on the integers, refusing every other value. *)
Definition sample_int (v : pyval) : option Z :=
  match v with
  | PInt n => Some n
  | _ => None
  end.

(** * Properties *)

(** Unfolds the sequencing of [run] and nothing else. *)
Ltac run_simpl := cbn [mbind mret run_bind run_ret].


Lemma first_truthy_field_no_hit keys d :
  no_hit is_truthy keys d -> first_truthy_field keys d = None.
Proof.
  induction keys as [|k keys IH]; intros Hno; simpl; [done|].
  destruct (d !! k) as [w|] eqn:Hw.
  - destruct (truthy w) eqn:Htw.
    + exfalso. apply (Hno k w); [left | done | done].
    + apply IH. intros k' w' Hin. apply Hno. by right.
  - apply IH. intros k' w' Hin. apply Hno. by right.
Qed.

Lemma first_present_field_hit keys d key v :
  first_hit is_present keys d key v -> first_present_field keys d = Some v.
Proof.
  intros (pre & post & -> & Hk & _ & Hpre).
  induction pre as [|k pre IH]; simpl.
  - by rewrite Hk.
  - destruct (d !! k) as [w|] eqn:Hw.
    + exfalso. apply (Hpre k w); [left | done | exact I].
    + apply IH. intros k' w' Hin. apply Hpre. by right.
Qed.





(** ** The reader of responses *)

Lemma send_mcp_request_skip json_loads (pre rest : rpc_trace) :
  Forall (skipped json_loads) pre ->
  send_mcp_request json_loads (pre ++ rest)%list = send_mcp_request json_loads rest.
Proof.
  induction 1 as [|[t l] pre [Ht Hl] _ IH]; [done|]. simpl in *.
  apply Qle_bool_iff in Ht. rewrite Ht. simpl.
  destruct Hl as [-> | Hl]; [done|].
  rewrite Hl. by destruct (String.eqb l EmptyString).
Qed.

(** Every record of a call is of one of three kinds: nothing but turns
    passed over; or, after such turns, a turn whose deadline test fails; or,
    after such turns, a turn that brings a line that decodes. *)
Lemma rpc_trace_cases json_loads (trace : rpc_trace) :
  Forall (skipped json_loads) trace
  \/ exists pre elapsed line post,
       trace = (pre ++ (elapsed, line) :: post)%list /\
       Forall (skipped json_loads) pre /\
       ((5 < elapsed)%Q
        \/ ((elapsed <= 5)%Q /\ line <> EmptyString /\
            exists parsed, json_loads (py_strip line) = Some parsed)).
Proof.
  induction trace as [|[t l] trace IH]; [by left|].
  destruct (Qlt_le_dec 5 t) as [Hlate | Hle].
  { right. exists [], t, l, trace. split; [done|]. split; [done|]. by left. }
  destruct (String.eqb_spec l EmptyString) as [-> | Hl].
  - destruct IH as [IH | (pre & t' & l' & post & -> & Hpre & Hev)].
    + left. constructor; [split; [done | by left] | done].
    + right. exists ((t, EmptyString) :: pre), t', l', post.
      split; [done|]. split; [|done].
      constructor; [split; [done | by left] | done].
  - destruct (json_loads (py_strip l)) as [parsed|] eqn:Hp.
    + right. exists [], t, l, trace. split; [done|]. split; [done|].
      right. split; [done|]. split; [done|]. by exists parsed.
    + destruct IH as [IH | (pre & t' & l' & post & -> & Hpre & Hev)].
      * left. constructor; [split; [done | by right] | done].
      * right. exists ((t, l) :: pre), t', l', post.
        split; [done|]. split; [|done].
        constructor; [split; [done | by right] | done].
Qed.

(** The read loop, turn by turn: the turns that bring no line or a line
    that is not JSON are passed over; the first line that decodes is
    returned, decoded; and when the deadline test of a turn fails before any
    line has decoded, the call raises [TimeoutError] and returns nothing.
    As long as neither has happened the call is still reading. *)
Theorem send_mcp_request_first_json json_loads (pre post : rpc_trace)
    (elapsed : Q) (line : string) :
  Forall (skipped json_loads) pre ->
  send_mcp_request json_loads pre = Waiting
  /\ (forall parsed, (elapsed <= 5)%Q -> line <> EmptyString ->
        json_loads (py_strip line) = Some parsed ->
        send_mcp_request json_loads (pre ++ (elapsed, line) :: post)%list = Done parsed)
  /\ ((5 < elapsed)%Q ->
        send_mcp_request json_loads (pre ++ (elapsed, line) :: post)%list
        = Raised TimeoutError).
Proof.
  intros Hpre. repeat split.
  - rewrite <- (app_nil_r pre). by rewrite send_mcp_request_skip.
  - intros parsed Ht Hline Hparsed. rewrite send_mcp_request_skip by done. simpl.
    apply Qle_bool_iff in Ht. rewrite Ht. simpl.
    destruct (String.eqb_spec line EmptyString); [done|]. by rewrite Hparsed.
  - intros Ht. rewrite send_mcp_request_skip by done. simpl.
    destruct (Qle_bool elapsed 5) eqn:Hle; [|done].
    apply Qle_bool_iff in Hle. exfalso. by apply (Qlt_not_le _ _ Ht).
Qed.

Lemma send_mcp_request_first_json_witness :
  send_mcp_request sample_loads (server_printing line_txid_result (Command X 1 1 "agent1"))
  = Done (PDict resp_txid_result)
  /\ send_mcp_request sample_loads (server_silent (Command X 1 1 "agent1"))
    = Raised TimeoutError.
Proof.
  split.
  - refine (proj1 (proj2 (send_mcp_request_first_json sample_loads
        [(1 # 10, "   Compiling kdapp-mcp-server v0.1.0" ++ String "010" EmptyString);
         (3 # 10, EmptyString)]%Q [] (1 # 2)%Q
        (line_txid_result ++ String "010" EmptyString) _)) _ _ _ _).
    + constructor; [split; [discriminate | right; vm_compute; reflexivity]|].
      constructor; [split; [discriminate | by left]|]. constructor.
    + discriminate.
    + discriminate.
    + vm_compute. reflexivity.
  - refine (proj2 (proj2 (send_mcp_request_first_json sample_loads
        [(1 # 10, "   Compiling kdapp-mcp-server v0.1.0" ++ String "010" EmptyString);
         (2 # 1, EmptyString)]%Q [] (51 # 10)%Q EmptyString _)) _).
    + constructor; [split; [discriminate | right; vm_compute; reflexivity]|].
      constructor; [split; [discriminate | by left]|]. constructor.
    + reflexivity.
Defined.

(** ** The verdict of execute_move *)

Lemma has_key_true key (d : gmap string pyval) v :
  d !! key = Some v -> has_key key d = true.
Proof. intros H. unfold has_key. apply bool_decide_eq_true. by exists v. Qed.

Lemma has_key_false key (d : gmap string pyval) :
  d !! key = None -> has_key key d = false.
Proof.
  intros H. unfold has_key. apply bool_decide_eq_false.
  rewrite H. by intros [? ?].
Qed.

Lemma extract_tx_hash_null_result (resp : gmap string pyval) :
  resp !! "result" = Some PNone -> extract_tx_hash (PDict resp) = PNone.
Proof. intros H. unfold extract_tx_hash, dict_get. by rewrite H. Qed.

Lemma move_accepted_no_tx (require_onchain : bool) (resp : gmap string pyval) result :
  resp !! "result" = Some result ->
  resp !! "error" = None ->
  truthy (extract_tx_hash (PDict resp)) = false ->
  move_accepted require_onchain (PDict resp) = negb require_onchain.
Proof.
  intros Hres Herr Htx. unfold move_accepted.
  rewrite (has_key_false _ _ Herr), (has_key_true _ _ _ Hres), Htx.
  cbn [negb andb].
  destruct require_onchain; [|by rewrite andb_false_r].
  by destruct (dict_get "result" resp).
Qed.

(** C2: when the server's answer has a result field and no error field, and
    [extract_tx_hash] finds no identifier in it (it returns [None] or a
    falsy value; a null result is such a response), [execute_move] returns
    [True] exactly when on-chain enforcement is off, and [False] when it is
    on. *)
Theorem execute_move_without_tx json_loads (c : coordinator) (player : mark)
    (row col : Z) (signer : string) (server : command -> rpc_trace)
    (resp : gmap string pyval) (result : pyval) :
  send_mcp_request json_loads (server (Command player row col signer)) = Done (PDict resp) ->
  resp !! "result" = Some result ->
  resp !! "error" = None ->
  (result = PNone \/ truthy (extract_tx_hash (PDict resp)) = false) ->
  exists ok,
    execute_move json_loads c player row col signer server = Done ok /\
    (ok = true <-> require_onchain c = false) /\
    (require_onchain c = true -> ok = false).
Proof.
  intros Hsend Hres Herr Htx.
  assert (truthy (extract_tx_hash (PDict resp)) = false) as Htx'.
  { destruct Htx as [-> | Htx]; [|done].
    by rewrite (extract_tx_hash_null_result _ Hres). }
  exists (negb (require_onchain c)). unfold execute_move. rewrite Hsend. run_simpl.
  rewrite (move_accepted_no_tx _ _ _ Hres Herr Htx').
  split; [done|]. by destruct (require_onchain c).
Qed.

Lemma execute_move_without_tx_witness :
  exists ok,
    execute_move sample_loads (Coordinator empty_board X true) X 1 1 "agent1"
      (server_printing line_null_result) = Done ok /\
    (ok = true <-> true = false) /\ (true = true -> ok = false).
Proof.
  apply (execute_move_without_tx sample_loads (Coordinator empty_board X true)
           X 1 1 "agent1" (server_printing line_null_result) resp_null_result PNone).
  - vm_compute. reflexivity.
  - vm_compute. reflexivity.
  - vm_compute. reflexivity.
  - left. reflexivity.
Defined.

(** C10: an answer that carries an error field is refused by [execute_move]
    even when it carries a result field too, whatever the result holds and
    whether or not on-chain enforcement is on. *)
Theorem execute_move_error_field json_loads (c : coordinator) (player : mark)
    (row col : Z) (signer : string) (server : command -> rpc_trace)
    (resp : gmap string pyval) (err result : pyval) :
  send_mcp_request json_loads (server (Command player row col signer)) = Done (PDict resp) ->
  resp !! "error" = Some err ->
  resp !! "result" = Some result ->
  execute_move json_loads c player row col signer server = Done false.
Proof.
  intros Hsend Herr Hres. unfold execute_move. rewrite Hsend. run_simpl.
  unfold move_accepted. by rewrite (has_key_true _ _ _ Herr).
Qed.

Lemma execute_move_error_field_witness :
  execute_move sample_loads (Coordinator empty_board O false) O 0 2 "agent2"
    (server_printing line_error_and_result) = Done false.
Proof.
  apply (execute_move_error_field sample_loads (Coordinator empty_board O false)
           O 0 2 "agent2" (server_printing line_error_and_result)
           resp_error_and_result (PStr "not your turn") (PStr "9f3c2ab47d10")).
  - vm_compute. reflexivity.
  - vm_compute. reflexivity.
  - vm_compute. reflexivity.
Defined.

(** ** The board *)

Lemma board3x3_grid (b : board) :
  board3x3 b ->
  exists c00 c01 c02 c10 c11 c12 c20 c21 c22,
    b = grid c00 c01 c02 c10 c11 c12 c20 c21 c22.
Proof.
  intros [Hlen Hrows].
  destruct b as [|r0 [|r1 [|r2 [|]]]]; try discriminate.
  apply Forall_cons in Hrows as [H0 Hrows].
  apply Forall_cons in Hrows as [H1 Hrows].
  apply Forall_cons in Hrows as [H2 _].
  destruct r0 as [|? [|? [|? [|]]]]; try discriminate.
  destruct r1 as [|? [|? [|? [|]]]]; try discriminate.
  destruct r2 as [|? [|? [|? [|]]]]; try discriminate.
  by repeat eexists.
Qed.

Lemma grid_board3x3 c00 c01 c02 c10 c11 c12 c20 c21 c22 :
  board3x3 (grid c00 c01 c02 c10 c11 c12 c20 c21 c22).
Proof. split; [done|]. by repeat constructor. Qed.

(** The nine coordinates, one by one. *)
Lemma all_cells_inv (ij : Z * Z) :
  ij ∈ all_cells ->
  ij = (0, 0) \/ ij = (0, 1) \/ ij = (0, 2) \/ ij = (1, 0) \/ ij = (1, 1) \/
  ij = (1, 2) \/ ij = (2, 0) \/ ij = (2, 1) \/ ij = (2, 2).
Proof.
  intros H. cbv in H.
  repeat (apply elem_of_cons in H as [-> | H]; [tauto|]).
  by apply not_elem_of_nil in H.
Qed.

Lemma all_cells_range (i j : Z) :
  (i, j) ∈ all_cells <-> 0 <= i <= 2 /\ 0 <= j <= 2.
Proof.
  split.
  - intros H. apply all_cells_inv in H.
    repeat (destruct H as [H|H]; [inversion H; lia|]). inversion H; lia.
  - intros [Hi Hj].
    assert (i = 0 \/ i = 1 \/ i = 2) as [-> | [-> | ->]] by lia;
      assert (j = 0 \/ j = 1 \/ j = 2) as [-> | [-> | ->]] by lia;
      cbv; repeat first [by left | right].
Qed.

Lemma board_get_total (b : board) (ij : Z * Z) :
  board3x3 b -> ij ∈ all_cells -> exists c, board_get b ij.1 ij.2 = Done c.
Proof.
  intros Hb Hij. apply board3x3_grid in Hb as (?&?&?&?&?&?&?&?&?&->).
  apply all_cells_inv in Hij.
  repeat (destruct Hij as [-> | Hij]; [by eexists|]). subst. by eexists.
Qed.

Lemma update_board_total (b : board) (ij : Z * Z) (player : mark) :
  board3x3 b -> ij ∈ all_cells ->
  exists b', update_board b ij.1 ij.2 player = Done b' /\ board3x3 b'.
Proof.
  intros Hb Hij. apply board3x3_grid in Hb as (?&?&?&?&?&?&?&?&?&->).
  apply all_cells_inv in Hij.
  repeat (destruct Hij as [-> | Hij];
          [eexists; split; [reflexivity | apply grid_board3x3]|]).
  subst. eexists; split; [reflexivity | apply grid_board3x3].
Qed.

Lemma is_valid_move_candidate_range (b : board) (row col : Z) :
  is_valid_move_candidate b (Some row) (Some col) = true ->
  0 <= row <= 2 /\ 0 <= col <= 2.
Proof.
  unfold is_valid_move_candidate.
  destruct (Z.leb_spec 0 row), (Z.leb_spec row 2), (Z.leb_spec 0 col),
    (Z.leb_spec col 2); simpl; try discriminate.
  intros _. lia.
Qed.

(** C9: [is_valid_move_candidate] answers [True] exactly when both
    coordinates are integers between 0 and 2 and the cell they name is
    empty. *)
Theorem is_valid_move_candidate_spec (b : board) (row col : option Z) :
  is_valid_move_candidate b row col = true <->
  exists r c, row = Some r /\ col = Some c /\
              0 <= r <= 2 /\ 0 <= c <= 2 /\ board_get b r c = Done None.
Proof.
  unfold is_valid_move_candidate. split.
  - destruct row as [r|], col as [c|]; try discriminate.
    destruct (Z.leb_spec 0 r), (Z.leb_spec r 2), (Z.leb_spec 0 c), (Z.leb_spec c 2);
      simpl; try discriminate.
    destruct (board_get b r c) as [cl| |] eqn:Hget; try discriminate.
    intros Hcl%bool_decide_eq_true. subst cl.
    exists r, c. split_and!; done || lia.
  - intros (r & c & -> & -> & [? ?] & [? ?] & Hget).
    destruct (Z.leb_spec 0 r), (Z.leb_spec r 2), (Z.leb_spec 0 c), (Z.leb_spec c 2);
      try lia.
    simpl. rewrite Hget. by apply bool_decide_eq_true.
Qed.

(** ** check_winner *)

Lemma check_winner_grid :
  forall c00 c01 c02 c10 c11 c12 c20 c21 c22,
    check_winner_ok (grid c00 c01 c02 c10 c11 c12 c20 c21 c22).
Proof. refine (bool_decide_unpack _ _). vm_compute. exact I. Qed.

(** C4: on every 3x3 board [check_winner] returns; what it returns is a
    mark only if that mark fills a row, a column or a diagonal, and it is a
    mark whenever some line is filled by one mark (the mark itself when no
    line is filled by the other one); it is Draw exactly when every cell is
    filled and no line is; and it is nothing exactly in the remaining case. *)
Theorem check_winner_spec (b : board) :
  board3x3 b -> exists r, check_winner b = Done r /\ winner_spec b r.
Proof.
  intros Hb. apply board3x3_grid in Hb as (c00&c01&c02&c10&c11&c12&c20&c21&c22&->).
  pose proof (check_winner_grid c00 c01 c02 c10 c11 c12 c20 c21 c22) as H.
  unfold check_winner_ok in H.
  destruct (check_winner (grid c00 c01 c02 c10 c11 c12 c20 c21 c22)) as [r| |];
    [by exists r | done | done].
Qed.

Lemma check_winner_spec_witness :
  exists r, check_winner board_scenario = Done r /\ winner_spec board_scenario r.
Proof. apply (check_winner_spec board_scenario). apply grid_board3x3. Defined.

(** The scenario of the specification: X completes the first row. *)
Example check_winner_scenario :
  check_winner board_scenario = Done None /\
  (b ← update_board board_scenario 0 2 X; check_winner b) = Done (Some (Winner X)).
Proof. split; reflexivity. Qed.

Example check_winner_full_board :
  check_winner (grid (Some X) (Some O) (Some X) (Some X) (Some O) (Some O)
                     (Some O) (Some X) (Some X)) = Done (Some Draw).
Proof. reflexivity. Qed.

(** ** get_default_move and the fallback *)

Lemma filter_run_pure {A : Type} (p : A -> run bool) (P : A -> Prop)
    `{!forall x, Decision (P x)} (l : list A) :
  (forall x, x ∈ l -> p x = Done (bool_decide (P x))) ->
  filter_run p l = Done (filter P l).
Proof.
  induction l as [|x l IH]; intros Hp; simpl; [done|].
  rewrite (Hp x) by left. run_simpl.
  rewrite IH by (intros y Hy; apply Hp; by right). run_simpl.
  case_bool_decide; [by rewrite filter_cons_True | by rewrite filter_cons_False].
Qed.

Lemma find_run_pure {A : Type} (p : A -> run bool) (P : A -> Prop)
    `{!forall x, Decision (P x)} (l : list A) :
  (forall x, x ∈ l -> p x = Done (bool_decide (P x))) ->
  exists r, find_run p l = Done r /\
    match r with
    | Some x => x ∈ l /\ P x
    | None => forall x, x ∈ l -> ~ P x
    end.
Proof.
  induction l as [|x l IH]; intros Hp; simpl.
  - exists None. split; [done|]. by intros x ?%not_elem_of_nil.
  - rewrite (Hp x) by left. run_simpl. case_bool_decide as Hx.
    + exists (Some x). split; [done|]. split; [left | done].
    + destruct IH as (r & -> & Hr); [intros y Hy; apply Hp; by right|].
      exists r. split; [done|]. destruct r as [y|].
      * destruct Hr. split; [by right | done].
      * intros y [-> | Hy]%elem_of_cons; [done | by apply Hr].
Qed.

Lemma is_empty_at_pure (b : board) (ij : Z * Z) :
  board3x3 b -> ij ∈ all_cells ->
  is_empty_at b ij = Done (bool_decide (empty_at b ij)).
Proof.
  intros Hb Hij. destruct (board_get_total b ij Hb Hij) as [c Hc].
  unfold is_empty_at. rewrite Hc. run_simpl. f_equal.
  apply bool_decide_ext. unfold empty_at. rewrite Hc.
  split; [by intros -> | by intros [= ->]].
Qed.

Lemma empty_cells_run (b : board) :
  board3x3 b -> filter_run (is_empty_at b) all_cells = Done (empties b).
Proof.
  intros Hb. apply filter_run_pure. intros ij Hij. by apply is_empty_at_pure.
Qed.

Lemma empties_elem (b : board) (ij : Z * Z) :
  ij ∈ empties b <-> empty_at b ij /\ ij ∈ all_cells.
Proof. apply list_elem_of_filter. Qed.

Lemma available_elem (group E : list (Z * Z)) (ij : Z * Z) :
  ij ∈ available group E <-> ij ∈ E /\ ij ∈ group.
Proof. unfold available. by rewrite list_elem_of_filter. Qed.

Lemma random_choice_elem {A : Type} (rnd : nat) (l : list A) :
  l <> [] -> exists x, random_choice rnd l = Done x /\ x ∈ l.
Proof.
  intros Hl. destruct l as [|a l]; [done|].
  unfold random_choice, py_index.
  set (k := (rnd `mod` length (a :: l))%nat).
  assert (k < length (a :: l))%nat as Hk by (apply Nat.mod_upper_bound; simpl; lia).
  destruct (Z.ltb_spec (Z.of_nat k) 0); [lia|].
  destruct (Z.leb_spec 0 (Z.of_nat k)); [|lia].
  destruct (Z.ltb_spec (Z.of_nat k) (Z.of_nat (length (a :: l)))); [|lia].
  simpl andb. cbv iota. rewrite Nat2Z.id.
  destruct (lookup_lt_is_Some_2 (a :: l) k Hk) as [x Hx].
  rewrite Hx. exists x. split; [done|]. by eapply list_elem_of_lookup_2.
Qed.

(** The group [get_default_move] draws from, by priority. *)
Lemma get_default_move_cases (rnd : nat) (b : board) :
  board3x3 b -> empties b <> [] ->
  exists d, get_default_move rnd b = Done d /\
    (d ∈ available center (empties b)
     \/ (available center (empties b) = [] /\ d ∈ available corners (empties b))
     \/ (available center (empties b) = [] /\ available corners (empties b) = []
         /\ d ∈ available edges (empties b))
     \/ (available center (empties b) = [] /\ available corners (empties b) = []
         /\ available edges (empties b) = [] /\ d ∈ empties b)).
Proof.
  intros Hb HE. unfold get_default_move. rewrite (empty_cells_run b Hb). run_simpl.
  destruct (empties b) as [|e0 E'] eqn:HeqE; [done|].
  destruct (available center (e0 :: E')) as [|x1 l1] eqn:H1.
  - destruct (available corners (e0 :: E')) as [|x2 l2] eqn:H2.
    + destruct (available edges (e0 :: E')) as [|x3 l3] eqn:H3.
      * destruct (random_choice_elem rnd (e0 :: E')) as (d & Hd & Hin); [done|].
        exists d. split; [done|]. right; right; right. done.
      * destruct (random_choice_elem rnd (x3 :: l3)) as (d & Hd & Hin); [done|].
        exists d. split; [done|]. right; right; left. done.
    + destruct (random_choice_elem rnd (x2 :: l2)) as (d & Hd & Hin); [done|].
      exists d. split; [done|]. right; left. done.
  - destruct (random_choice_elem rnd (x1 :: l1)) as (d & Hd & Hin); [done|].
    exists d. split; [done|]. by left.
Qed.

Lemma group_cover (ij : Z * Z) :
  ij ∈ all_cells -> ij ∈ center \/ ij ∈ corners \/ ij ∈ edges.
Proof.
  intros H. apply all_cells_inv in H.
  repeat (destruct H as [-> | H]; [cbv; set_solver|]). subst. cbv. set_solver.
Qed.

Lemma group_in_all_cells (ij : Z * Z) :
  ij ∈ center \/ ij ∈ corners \/ ij ∈ edges -> ij ∈ all_cells.
Proof.
  cbv. intros [H | [H | H]];
    repeat (apply elem_of_cons in H as [-> | H]; [set_solver|]);
    by apply not_elem_of_nil in H.
Qed.

Lemma available_nil_not_elem (group E : list (Z * Z)) (ij : Z * Z) :
  available group E = [] -> ij ∈ group -> ij ∉ E.
Proof.
  intros Hnil Hg HE.
  assert (ij ∈ available group E) as Hin by by apply available_elem.
  rewrite Hnil in Hin. by apply not_elem_of_nil in Hin.
Qed.

(** [get_default_move] returns on every 3x3 board, and what it returns is a
    coordinate of the board. *)
Lemma get_default_move_total (rnd : nat) (b : board) :
  board3x3 b -> exists d, get_default_move rnd b = Done d /\ d ∈ all_cells.
Proof.
  intros Hb. destruct (decide (empties b = [])) as [HE | HE].
  - exists (0, 0). split.
    + unfold get_default_move. rewrite (empty_cells_run b Hb). run_simpl.
      by rewrite HE.
    + by apply all_cells_range.
  - destruct (get_default_move_cases rnd b Hb HE) as (d & Hd & Hcases).
    exists d. split; [done|].
    destruct Hcases as [H | [[_ H] | [(_ & _ & H) | (_ & _ & _ & H)]]].
    + apply available_elem in H as [_ H]. apply group_in_all_cells. by left.
    + apply available_elem in H as [_ H]. apply group_in_all_cells. right. by left.
    + apply available_elem in H as [_ H]. apply group_in_all_cells. right. by right.
    + by apply empties_elem in H as [_ H].
Qed.

(** What lines 629-641 hand to the second [execute_move]. *)
Lemma fallback_move_cases (rnd : nat) (b : board) (row col : Z) :
  board3x3 b ->
  exists d f,
    get_default_move rnd b = Done d /\
    fallback_move rnd b row col = Done f /\
    f ∈ all_cells /\
    ((d <> (row, col) /\ f = d)
     \/ (d = (row, col) /\ empty_at b f /\ f <> (row, col))
     \/ (d = (row, col) /\ f = d /\
         forall ij, ij ∈ all_cells -> empty_at b ij -> ij = (row, col))).
Proof.
  intros Hb. destruct (get_default_move_total rnd b Hb) as (d & Hd & Hdin).
  unfold fallback_move. rewrite Hd. run_simpl.
  destruct (decide (d = (row, col))) as [Heq | Hne].
  - subst d. cbn [fst snd]. rewrite !bool_decide_eq_true_2 by done. cbn [andb].
    destruct (find_run_pure
      (fun ij => empty ← is_empty_at b ij;
                 mret (empty && negb (bool_decide (ij.1 = row) && bool_decide (ij.2 = col))))
      (fun ij => empty_at b ij /\ ij <> (row, col)) all_cells)
      as (r & Hr & Hspec).
    { intros ij Hij. rewrite (is_empty_at_pure b ij Hb Hij). run_simpl. f_equal.
      destruct ij as [i j]. cbn [fst snd]. apply eq_bool_prop_intro.
      rewrite andb_True, negb_True, andb_True, !bool_decide_spec.
      split; intros [He Hn]; (split; [done|]); intros Hc; apply Hn.
      + by inversion Hc.
      + destruct Hc. by subst. }
    rewrite Hr. run_simpl. destruct r as [f|]; simpl.
    + destruct Hspec as [Hfin [Hfe Hfne]].
      exists (row, col), f. split_and!; try done. right. left. done.
    + exists (row, col), (row, col). split_and!; try done. right. right.
      split_and!; try done. intros ij Hij He.
      destruct (decide (ij = (row, col))) as [|Hn]; [done|].
      exfalso. by apply (Hspec ij Hij).
  - exists d, d. split; [done|].
    assert (bool_decide (d.1 = row) && bool_decide (d.2 = col) = false) as ->.
    { destruct d as [i j]. cbn [fst snd]. apply andb_false_iff.
      destruct (decide (i = row)) as [-> | Hi];
        [right | left]; apply bool_decide_eq_false; congruence. }
    split_and!; try done. by left.
Qed.

Lemma empties_nonempty (b : board) (ij : Z * Z) :
  ij ∈ all_cells -> empty_at b ij -> empties b <> [].
Proof.
  intros Hin He HE.
  assert (ij ∈ empties b) as H by by apply empties_elem.
  rewrite HE in H. by apply not_elem_of_nil in H.
Qed.

(** C6, as amended: on a 3x3 board with an empty cell [get_default_move]
    returns an empty cell, which is the centre when the centre is empty,
    else a corner when some corner is empty, else an edge; which corner or
    edge is left to the draw of [random.choice].  The move submitted after a
    refusal differs from the refused coordinate, and is an empty cell,
    whenever some other cell is empty. *)
Theorem get_default_move_priority (rnd : nat) (b : board) :
  board3x3 b ->
  (exists ij, ij ∈ all_cells /\ empty_at b ij) ->
  exists d, get_default_move rnd b = Done d /\ empty_at b d /\
    (empty_at b (1, 1) -> d = (1, 1)) /\
    (~ empty_at b (1, 1) -> (exists ij, ij ∈ corners /\ empty_at b ij) ->
       d ∈ corners) /\
    (~ empty_at b (1, 1) -> (forall ij, ij ∈ corners -> ~ empty_at b ij) ->
       d ∈ edges) /\
    (forall row col,
       (exists ij, ij ∈ all_cells /\ empty_at b ij /\ ij <> (row, col)) ->
       exists f, fallback_move rnd b row col = Done f /\
                 empty_at b f /\ f <> (row, col)).
Proof.
  intros Hb (e0 & He0in & He0).
  pose proof (empties_nonempty b e0 He0in He0) as HE.
  destruct (get_default_move_cases rnd b Hb HE) as (d & Hd & Hcases).
  assert (forall ij, ij ∈ center -> ij = (1, 1)) as Hcenter
    by (by intros ij ?%list_elem_of_singleton).
  assert ((1, 1) ∈ center) as Hc11 by (by apply list_elem_of_singleton).
  assert (empty_at b d) as Hde.
  { destruct Hcases as [H | [[_ H] | [(_ & _ & H) | (_ & _ & _ & H)]]];
      try apply available_elem in H as [H _]; by apply empties_elem in H as [H _]. }
  exists d. split; [done|]. split; [done|]. split_and!.
  - intros H11.
    assert ((1, 1) ∈ empties b) as Hin by (apply empties_elem; split;
      [done | by apply all_cells_range]).
    destruct Hcases as [H | [[Hn _] | [(Hn & _) | (Hn & _)]]].
    + apply available_elem in H as [_ H]. by apply Hcenter.
    + by destruct (available_nil_not_elem _ _ _ Hn Hc11).
    + by destruct (available_nil_not_elem _ _ _ Hn Hc11).
    + by destruct (available_nil_not_elem _ _ _ Hn Hc11).
  - intros H11 (ij & Hij & Hije).
    assert (ij ∈ empties b) as Hin
      by (apply empties_elem; split; [done|]; apply group_in_all_cells; tauto).
    destruct Hcases as [H | [[_ H] | [(_ & Hn & _) | (_ & Hn & _)]]].
    + apply available_elem in H as [_ H]. apply Hcenter in H. by subst.
    + by apply available_elem in H as [_ H].
    + by destruct (available_nil_not_elem _ _ _ Hn Hij).
    + by destruct (available_nil_not_elem _ _ _ Hn Hij).
  - intros H11 Hcorners.
    destruct Hcases as [H | [[_ H] | [(_ & _ & H) | (Hn1 & Hn2 & Hn3 & H)]]].
    + apply available_elem in H as [_ H]. apply Hcenter in H. by subst.
    + apply available_elem in H as [_ H]. by destruct (Hcorners d H).
    + by apply available_elem in H as [_ H].
    + apply empties_elem in H as [_ H].
      destruct (group_cover d H) as [Hg | [Hg | Hg]].
      * apply Hcenter in Hg. by subst.
      * by destruct (Hcorners d Hg).
      * done.
  - intros row col (ij & Hij & Hije & Hijne).
    destruct (fallback_move_cases rnd b row col Hb) as (d' & f & Hd' & Hf & Hfin & Hc).
    rewrite Hd in Hd'. injection Hd' as <-.
    exists f. split; [done|].
    destruct Hc as [[Hne ->] | [(_ & Hfe & Hfne) | (_ & _ & Hall)]]; [done | done |].
    by destruct (Hijne (Hall ij Hij Hije)).
Qed.

Lemma get_default_move_priority_witness :
  exists d, get_default_move 2 board_scenario = Done d /\
    empty_at board_scenario d /\
    (empty_at board_scenario (1, 1) -> d = (1, 1)) /\
    (~ empty_at board_scenario (1, 1) ->
       (exists ij, ij ∈ corners /\ empty_at board_scenario ij) -> d ∈ corners) /\
    (~ empty_at board_scenario (1, 1) ->
       (forall ij, ij ∈ corners -> ~ empty_at board_scenario ij) -> d ∈ edges) /\
    (forall row col,
       (exists ij, ij ∈ all_cells /\ empty_at board_scenario ij /\ ij <> (row, col)) ->
       exists f, fallback_move 2 board_scenario row col = Done f /\
                 empty_at board_scenario f /\ f <> (row, col)).
Proof.
  apply (get_default_move_priority 2 board_scenario).
  - apply grid_board3x3.
  - exists (0, 2). split; [by apply all_cells_range | reflexivity].
Defined.

(** C6, the claim as written fails: with the centre taken and four free
    corners the move depends on the draw, so the picker is not a function of
    the board. *)
Lemma get_default_move_not_deterministic :
  (exists ij, ij ∈ all_cells /\ empty_at board_centre_taken ij) /\
  get_default_move 0 board_centre_taken = Done (0, 0) /\
  get_default_move 1 board_centre_taken = Done (0, 2) /\
  get_default_move 0 board_centre_taken <> get_default_move 1 board_centre_taken.
Proof.
  split; [exists (0, 0); split; [by apply all_cells_range | reflexivity]|].
  split; [reflexivity|]. split; [reflexivity|]. discriminate.
Qed.

(** ** One turn of the loop *)

Lemma get_move_from_agent_total (reply : option (option Z * option Z))
    (rnd : nat) (b : board) :
  board3x3 b ->
  exists mv, get_move_from_agent reply rnd b = Done mv /\ mv ∈ all_cells.
Proof.
  intros Hb. unfold get_move_from_agent.
  destruct reply as [[[row|] [col|]]|]; try by apply get_default_move_total.
  destruct (is_valid_move_candidate b (Some row) (Some col)) eqn:Hv;
    [|by apply get_default_move_total].
  apply is_valid_move_candidate_range in Hv.
  exists (row, col). split; [done | by apply all_cells_range].
Qed.

(** The body of the loop on a 3x3 board without a winner: both moves are
    found, both updates of the board succeed, and what is left is the two
    calls of [execute_move]. *)
Lemma loop_body_run json_loads (e : ply_env) (c : coordinator) (v : loop_vars) :
  board3x3 (game_board c) ->
  check_winner (game_board c) = Done None ->
  exists mv fb b1 b2,
    get_move_from_agent (agent_reply e) (rnd_agent e) (game_board c) = Done mv /\
    fallback_move (rnd_fallback e) (game_board c) mv.1 mv.2 = Done fb /\
    board3x3 b1 /\ board3x3 b2 /\
    loop_body json_loads e c v =
      (ok ← first_submission json_loads e c mv;
       if ok : bool then
         Done (Next (Coordinator b1 (switch_player (current_player c)) (require_onchain c))
                    (LoopVars (S (move_count v)) 0 (Some mv)))
       else
         ok' ← second_submission json_loads e c fb;
         if ok' : bool then
           Done (Next (Coordinator b2 (switch_player (current_player c)) (require_onchain c))
                      (LoopVars (S (move_count v)) 0 (Some fb)))
         else
           Done (Next c (LoopVars (move_count v) (S (consecutive_failures v)) (Some fb)))).
Proof.
  intros Hb Hw.
  destruct (get_move_from_agent_total (agent_reply e) (rnd_agent e) _ Hb)
    as ([row col] & Hmv & Hmvin).
  destruct (fallback_move_cases (rnd_fallback e) (game_board c) row col Hb)
    as (d & [drow dcol] & _ & Hfb & Hfbin & _).
  destruct (update_board_total _ (row, col) (current_player c) Hb Hmvin)
    as (b1 & Hb1 & Hb1ok).
  destruct (update_board_total _ (drow, dcol) (current_player c) Hb Hfbin)
    as (b2 & Hb2 & Hb2ok).
  exists (row, col), (drow, dcol), b1, b2. split_and!; try done.
  unfold loop_body, first_submission, second_submission. rewrite Hw. run_simpl.
  rewrite Hmv. run_simpl. cbn [fst snd] in *.
  destruct (execute_move json_loads c (current_player c) row col
              (signer_of (current_player c)) (rpc_move e)) as [[|]| |];
    run_simpl; try done.
  - unfold accept_move. rewrite Hb1. by run_simpl.
  - rewrite Hfb. run_simpl.
    destruct (execute_move json_loads c (current_player c) drow dcol
                (signer_of (current_player c)) (rpc_fallback e)) as [[|]| |];
      run_simpl; try done.
    unfold accept_move. rewrite Hb2. by run_simpl.
Qed.

(** The shape of the board is kept by every turn of the loop. *)
Lemma loop_body_board3x3 json_loads (e : ply_env) (c c' : coordinator)
    (v v' : loop_vars) :
  board3x3 (game_board c) ->
  loop_body json_loads e c v = Done (Next c' v') ->
  board3x3 (game_board c').
Proof.
  intros Hb Hstep.
  destruct (check_winner (game_board c)) as [[w|]| |] eqn:Hw;
    try (unfold loop_body in Hstep; rewrite Hw in Hstep; discriminate).
  destruct (loop_body_run json_loads e c v Hb Hw)
    as (mv & fb & b1 & b2 & _ & _ & Hb1 & Hb2 & Hbody).
  rewrite Hbody in Hstep.
  destruct (first_submission json_loads e c mv) as [[|]| |]; try discriminate.
  - by injection Hstep as <- <-.
  - revert Hstep. run_simpl.
    destruct (second_submission json_loads e c fb) as [[|]| |]; try discriminate.
    + by intros [= <- <-].
    + by intros [= <- <-].
Qed.

Lemma game_loop_ceiling json_loads (envs : list ply_env) (c : coordinator)
    (v : loop_vars) :
  (max_consecutive_failures <= consecutive_failures v)%nat ->
  game_loop json_loads envs c v = Done (c, v).
Proof.
  intros Hv. destruct envs; simpl;
    rewrite (bool_decide_eq_false_2 (consecutive_failures v < max_consecutive_failures)%nat)
      by lia; by rewrite andb_false_r.
Qed.

Lemma switch_player_flips (p : mark) : switch_player p <> p.
Proof. by destruct p. Qed.

(** C3, as amended: in a turn of the loop the failure counter is 0 after an
    accepted move, be it the first submission or the fallback, and exactly
    one more than before when the move and its fallback are both refused
    (one for the turn, nothing more for the refused fallback); once it is 3
    the loop stops, whatever cells are still empty. *)
Theorem consecutive_failures_counter json_loads (e : ply_env) (c : coordinator)
    (v : loop_vars) :
  board3x3 (game_board c) ->
  check_winner (game_board c) = Done None ->
  failure_counter_spec json_loads e c v.
Proof.
  intros Hb Hw.
  destruct (loop_body_run json_loads e c v Hb Hw)
    as (mv & fb & b1 & b2 & Hmv & Hfb & _ & _ & Hbody).
  exists mv, fb. split; [done|]. split; [done|]. split_and!.
  - intros H1. rewrite H1 in Hbody. by repeat eexists.
  - intros H1 H2. rewrite H1, H2 in Hbody. by repeat eexists.
  - intros H1 H2. rewrite H1, H2 in Hbody. eexists _, _. split; [done|].
    split; [done|]. simpl. intros Hmax envs. apply game_loop_ceiling. simpl. lia.
  - intros envs Hv. by apply game_loop_ceiling.
Qed.

(** C8: in a turn of the loop the side to move is switched, once, after an
    accepted move, be it the first submission or the fallback, and it is the
    same as before when the move and its fallback are both refused. *)
Theorem side_to_move_flips json_loads (e : ply_env) (c : coordinator)
    (v : loop_vars) :
  board3x3 (game_board c) ->
  check_winner (game_board c) = Done None ->
  side_to_move_spec json_loads e c v.
Proof.
  intros Hb Hw.
  destruct (loop_body_run json_loads e c v Hb Hw)
    as (mv & fb & b1 & b2 & Hmv & Hfb & _ & _ & Hbody).
  exists mv, fb. split; [done|]. split; [done|]. split_and!.
  - intros H1. rewrite H1 in Hbody. eexists _, _. split; [done|].
    split; [done | apply switch_player_flips].
  - intros H1 H2. rewrite H1, H2 in Hbody. eexists _, _. split; [done|].
    split; [done | apply switch_player_flips].
  - intros H1 H2. rewrite H1, H2 in Hbody. by eexists _, _.
Qed.

Lemma consecutive_failures_counter_witness :
  failure_counter_spec sample_loads env_refusing
    (initial_coordinator true) (LoopVars 0 2 (Some (0, 0))).
Proof.
  apply (consecutive_failures_counter sample_loads env_refusing
           (initial_coordinator true) (LoopVars 0 2 (Some (0, 0)))).
  - apply grid_board3x3.
  - reflexivity.
Defined.

Lemma side_to_move_flips_witness :
  side_to_move_spec sample_loads env_accepting (initial_coordinator true) initial_vars.
Proof.
  apply (side_to_move_flips sample_loads env_accepting
           (initial_coordinator true) initial_vars).
  - apply grid_board3x3.
  - reflexivity.
Defined.

(** Three turns refused by the server: the board is still empty, X is
    still to move, and the loop has stopped with the counter at 3. *)
Example game_loop_abandoned :
  game_loop sample_loads [env_refusing; env_refusing; env_refusing]
    (initial_coordinator true) initial_vars
  = Done (initial_coordinator true, LoopVars 0 3 (Some (0, 0))).
Proof. vm_compute. reflexivity. Qed.

(** An accepted move: the centre is taken by X, O is to move. *)
Example game_loop_accepted_move :
  loop_body sample_loads env_accepting (initial_coordinator true) initial_vars
  = Done (Next (Coordinator (grid None None None None (Some X) None None None None)
                            O true)
               (LoopVars 1 0 (Some (1, 1)))).
Proof. vm_compute. reflexivity. Qed.

(** ** A call that times out *)

Lemma execute_move_server_gone json_loads (c : coordinator) (player : mark)
    (row col : Z) (signer : string) :
  execute_move json_loads c player row col signer server_gone = Raised TimeoutError.
Proof. reflexivity. Qed.

(** A [TimeoutError] of the first submission leaves the body of the loop,
    and the loop, as an exception. *)
Lemma game_loop_timeout json_loads (e : ply_env) (envs : list ply_env)
    (c : coordinator) (v : loop_vars) :
  board3x3 (game_board c) ->
  check_winner (game_board c) = Done None ->
  (move_count v < max_moves)%nat ->
  (consecutive_failures v < max_consecutive_failures)%nat ->
  (forall mv, first_submission json_loads e c mv = Raised TimeoutError) ->
  game_loop json_loads (e :: envs) c v = Raised TimeoutError.
Proof.
  intros Hb Hw Hm Hf Ht.
  destruct (loop_body_run json_loads e c v Hb Hw)
    as (mv & fb & b1 & b2 & _ & _ & _ & _ & Hbody).
  rewrite (Ht mv) in Hbody. cbn [game_loop].
  rewrite !bool_decide_eq_true_2 by done. cbn [andb]. by rewrite Hbody.
Qed.

(** C1, on the code: when the server's output has ended and the deadline of
    the first [kdapp_execute_command] call passes, the [TimeoutError] is not
    turned into a refused move: it leaves [execute_move] and the loop of
    [play_game], with no change to the failure counter and no further turn,
    whatever the agent proposed and whatever the rest of the run would have
    been. *)
Theorem timeout_escapes_game_loop json_loads (require_onchain : bool)
    (reply : option (option Z * option Z)) (rnd rnd' : nat)
    (server' : command -> rpc_trace) (envs : list ply_env) :
  execute_move json_loads (initial_coordinator require_onchain) X 1 1 "agent1" server_gone
  = Raised TimeoutError
  /\ game_loop json_loads (PlyEnv reply rnd server_gone rnd' server' :: envs)
       (initial_coordinator require_onchain) initial_vars
     = Raised TimeoutError.
Proof.
  split; [reflexivity|].
  apply game_loop_timeout.
  - apply grid_board3x3.
  - reflexivity.
  - unfold max_moves. simpl. lia.
  - unfold max_consecutive_failures. simpl. lia.
  - intros mv. reflexivity.
Qed.

(** * Further properties *)

(** ** The acceptance policy *)

Lemma has_key_spec key (d : gmap string pyval) :
  has_key key d = true <-> exists v, d !! key = Some v.
Proof. unfold has_key. by rewrite bool_decide_eq_true. Qed.

(** X1: [execute_move] returns [True] in one situation only: the call
    returned a dict that has no error field and has a result field, and
    either on-chain enforcement is off or [extract_tx_hash] gives a truthy
    value.  A list, a string, a number or null as response is a refusal. *)
Theorem execute_move_accepts_iff json_loads (c : coordinator) (player : mark)
    (row col : Z) (signer : string) (server : command -> rpc_trace) :
  execute_move json_loads c player row col signer server = Done true <->
  exists resp result,
    send_mcp_request json_loads (server (Command player row col signer))
      = Done (PDict resp) /\
    resp !! "error" = None /\
    resp !! "result" = Some result /\
    (require_onchain c = false \/ truthy (extract_tx_hash (PDict resp)) = true).
Proof.
  unfold execute_move.
  destruct (send_mcp_request json_loads (server (Command player row col signer)))
    as [response| |]; run_simpl.
  2,3: split; [discriminate | by intros (? & ? & ? & _)].
  split.
  - intros [= Hacc]. destruct response as [| | | | | |resp]; try discriminate.
    unfold move_accepted in Hacc.
    destruct (has_key "error" resp) eqn:Herr; [discriminate|].
    destruct (has_key "result" resp) eqn:Hres; [|discriminate].
    cbn [negb andb] in Hacc.
    apply has_key_spec in Hres as [result Hres].
    exists resp, result. split; [done|]. split.
    { destruct (resp !! "error") as [err|] eqn:He; [|done].
      by rewrite (has_key_true _ _ _ He) in Herr. }
    split; [done|].
    destruct (require_onchain c); [right | by left].
    rewrite andb_true_r in Hacc.
    destruct (dict_get "result" resp); try discriminate;
      by destruct (truthy (extract_tx_hash (PDict resp))).
  - intros (resp & result & [= ->] & Herr & Hres & Hpol). f_equal.
    unfold move_accepted.
    rewrite (has_key_false _ _ Herr), (has_key_true _ _ _ Hres). cbn [negb andb].
    destruct (require_onchain c) eqn:Hro.
    + destruct Hpol as [|Htx]; [done|]. rewrite Htx, andb_true_r. cbn [negb].
      destruct (dict_get "result" resp) eqn:Hget; try done.
      unfold extract_tx_hash in Htx. by rewrite Hget in Htx.
    + by rewrite andb_false_r.
Qed.

Lemma extract_tx_hash_receipt (resp r receipt : gmap string pyval)
    (key : string) (v : pyval) :
  resp !! "result" = Some (PDict r) ->
  no_hit is_truthy direct_keys r ->
  r !! "receipt" = Some (PDict receipt) ->
  first_hit is_present receipt_keys receipt key v ->
  extract_tx_hash (PDict resp) = v.
Proof.
  intros Hres Hno Hrc Hhit. unfold extract_tx_hash, dict_get. rewrite Hres.
  unfold default. cbn [from_option id truthy].
  assert (r <> ∅) as Hne by (intros ->; by rewrite lookup_empty in Hrc).
  case_bool_decide; [done|]. cbn [negb].
  unfold extract_from_dict.
  rewrite (first_truthy_field_no_hit _ _ Hno), Hrc.
  by rewrite (first_present_field_hit _ _ _ _ Hhit).
Qed.

(** X2: under a receipt the first field present among tx_hash, txid, hash
    decides, truthy or not.  When no direct field holds a truthy value, the
    verdict on the response is: accepted exactly when enforcement is off or
    that first present field is truthy; an empty tx_hash in the receipt
    makes the move refused under enforcement whatever txid and hash hold. *)
Theorem move_accepted_receipt_first_present (require_onchain : bool)
    (resp r receipt : gmap string pyval) (key : string) (v : pyval) :
  resp !! "error" = None ->
  resp !! "result" = Some (PDict r) ->
  no_hit is_truthy direct_keys r ->
  r !! "receipt" = Some (PDict receipt) ->
  first_hit is_present receipt_keys receipt key v ->
  move_accepted require_onchain (PDict resp) = negb require_onchain || truthy v.
Proof.
  intros Herr Hres Hno Hrc Hhit. unfold move_accepted.
  rewrite (has_key_false _ _ Herr), (has_key_true _ _ _ Hres).
  rewrite (extract_tx_hash_receipt _ _ _ _ _ Hres Hno Hrc Hhit).
  unfold dict_get. rewrite Hres. unfold default. cbn [negb andb from_option id].
  destruct require_onchain; [|done]. by destruct (truthy v).
Qed.

Lemma move_accepted_receipt_first_present_witness :
  move_accepted true (PDict resp_shadowed_receipt) = false.
Proof.
  apply (move_accepted_receipt_first_present true resp_shadowed_receipt
           result_shadowed_receipt
           {[ "tx_hash" := PStr EmptyString; "txid" := PStr "9f3c2ab47d10" ]}
           "tx_hash" (PStr EmptyString)).
  - vm_compute. reflexivity.
  - vm_compute. reflexivity.
  - intros k w Hk Hw.
    unfold direct_keys in Hk.
    repeat (apply elem_of_cons in Hk as [-> | Hk];
            [vm_compute in Hw; discriminate|]).
    by apply not_elem_of_nil in Hk.
  - vm_compute. reflexivity.
  - exists [], ["txid"; "hash"]. split; [reflexivity|].
    split; [vm_compute; reflexivity|]. split; [exact I|].
    by intros k w ?%not_elem_of_nil.
Defined.

(** ** The two readers *)

(** The three ways the read loop of the model can end, read backwards. *)
Lemma send_mcp_request_cases json_loads (trace : rpc_trace) :
  match send_mcp_request json_loads trace with
  | Done parsed =>
      exists pre elapsed line post,
        trace = (pre ++ (elapsed, line) :: post)%list /\
        Forall (skipped json_loads) pre /\
        (elapsed <= 5)%Q /\ line <> EmptyString /\
        json_loads (py_strip line) = Some parsed
  | Raised e =>
      e = TimeoutError /\
      exists pre elapsed line post,
        trace = (pre ++ (elapsed, line) :: post)%list /\
        Forall (skipped json_loads) pre /\ (5 < elapsed)%Q
  | Waiting => Forall (skipped json_loads) trace
  end.
Proof.
  induction trace as [|[t l] trace IH]; simpl; [done|].
  destruct (Qle_bool t 5) eqn:Hle; simpl.
  - apply Qle_bool_iff in Hle.
    assert (l = EmptyString \/ json_loads (py_strip l) = None ->
            skipped json_loads (t, l)) as Hskip by (intros ?; by split).
    assert (skipped json_loads (t, l) ->
            match send_mcp_request json_loads trace with
            | Done parsed =>
                exists pre elapsed line post,
                  (t, l) :: trace = (pre ++ (elapsed, line) :: post)%list /\
                  Forall (skipped json_loads) pre /\
                  (elapsed <= 5)%Q /\ line <> EmptyString /\
                  json_loads (py_strip line) = Some parsed
            | Raised e =>
                e = TimeoutError /\
                exists pre elapsed line post,
                  (t, l) :: trace = (pre ++ (elapsed, line) :: post)%list /\
                  Forall (skipped json_loads) pre /\ (5 < elapsed)%Q
            | Waiting => Forall (skipped json_loads) ((t, l) :: trace)
            end) as Hrest.
    { intros Hs. destruct (send_mcp_request json_loads trace) as [parsed|e|].
      - destruct IH as (pre & t' & l' & post & -> & Hpre & Hrest).
        exists ((t, l) :: pre), t', l', post. split; [done|].
        split; [by constructor | done].
      - destruct IH as (-> & pre & t' & l' & post & -> & Hpre & Hlate).
        split; [done|]. exists ((t, l) :: pre), t', l', post. split; [done|].
        split; [by constructor | done].
      - by constructor. }
    destruct (String.eqb_spec l EmptyString) as [-> | Hl].
    + apply Hrest, Hskip. by left.
    + destruct (json_loads (py_strip l)) as [parsed|] eqn:Hp.
      * exists [], t, l, trace. by split_and!.
      * apply Hrest, Hskip. by right.
  - split; [done|]. exists [], t, l, trace. split; [done|]. split; [done|].
    apply Qnot_le_lt. intros H. apply Qle_bool_iff in H. congruence.
Qed.

(** X3: what the read loop of [send_mcp_request] ends with tells what it
    read (the request having been written and every read having given a
    string).  A returned value is the decoding of a non-empty line read in a
    turn whose deadline test passed, every turn before it having been passed
    over; a [TimeoutError] comes from a turn tested after more than 5
    seconds, again with every turn before it passed over; and the loop is
    still reading exactly when every turn so far was passed over. *)
Theorem send_mcp_request_inv json_loads (trace : rpc_trace) :
  (forall parsed, send_mcp_request json_loads trace = Done parsed ->
     exists pre elapsed line post,
       trace = (pre ++ (elapsed, line) :: post)%list /\
       Forall (skipped json_loads) pre /\
       (elapsed <= 5)%Q /\ line <> EmptyString /\
       json_loads (py_strip line) = Some parsed)
  /\ (send_mcp_request json_loads trace = Raised TimeoutError ->
      exists pre elapsed line post,
        trace = (pre ++ (elapsed, line) :: post)%list /\
        Forall (skipped json_loads) pre /\ (5 < elapsed)%Q)
  /\ (send_mcp_request json_loads trace = Waiting <->
      Forall (skipped json_loads) trace).
Proof.
  pose proof (send_mcp_request_cases json_loads trace) as H.
  split; [|split; [|split]].
  - intros parsed Hd. by rewrite Hd in H.
  - intros Hr. rewrite Hr in H. by destruct H as [_ H].
  - intros Hw. by rewrite Hw in H.
  - intros Hs. rewrite <- (app_nil_r trace). by rewrite send_mcp_request_skip.
Qed.

Lemma send_mcp_request_inv_witness :
  exists pre elapsed line post,
    server_printing line_txid_result (Command X 0 0 "agent1")
    = (pre ++ (elapsed, line) :: post)%list /\
    Forall (skipped sample_loads) pre /\
    (elapsed <= 5)%Q /\ line <> EmptyString /\
    sample_loads (py_strip line) = Some (PDict resp_txid_result).
Proof.
  apply (proj1 (send_mcp_request_inv sample_loads
                  (server_printing line_txid_result (Command X 0 0 "agent1")))).
  vm_compute. reflexivity.
Defined.

(** X4: the reader of [test_move.py] waits 10 seconds where the
    coordinator waits 5.  On the same output of the server it returns
    whatever the coordinator's reader returns, and when it times out the
    coordinator's does too. *)
Theorem tester_reader_extends json_loads (trace : rpc_trace) :
  (forall parsed, send_mcp_request json_loads trace = Done parsed ->
                  tester_send_mcp_request json_loads trace = Done parsed)
  /\ (tester_send_mcp_request json_loads trace = Raised TimeoutError ->
      send_mcp_request json_loads trace = Raised TimeoutError).
Proof.
  induction trace as [|[t l] trace [IH1 IH2]]; simpl; [done|].
  destruct (Qle_bool t 5) eqn:H5; simpl.
  - assert (Qle_bool t 10 = true) as ->.
    { apply Qle_bool_iff. apply Qle_bool_iff in H5.
      eapply Qle_trans; [exact H5 | done]. }
    simpl. destruct (String.eqb l EmptyString); [done|].
    by destruct (json_loads (py_strip l)).
  - split; [discriminate | done].
Qed.

(** The longer deadline matters: an answer after seven seconds reaches the
    tester and is a [TimeoutError] for the coordinator. *)
Example tester_reader_slow_server :
  tester_send_mcp_request sample_loads
    (server_slow line_txid_result (Command X 0 0 "agent1"))
  = Done (PDict resp_txid_result)
  /\ send_mcp_request sample_loads
       (server_slow line_txid_result (Command X 0 0 "agent1"))
     = Raised TimeoutError.
Proof. split; vm_compute; reflexivity. Qed.

(** ** Writing the board *)

Lemma update_board_set_get (b : board) (row col : Z) (player : mark) :
  board3x3 b ->
  (row, col) ∈ all_cells ->
  exists b',
    update_board b row col player = Done b' /\
    board3x3 b' /\
    board_get b' row col = Done (Some player) /\
    forall ij, ij ∈ all_cells -> ij <> (row, col) ->
               board_get b' ij.1 ij.2 = board_get b ij.1 ij.2.
Proof.
  intros Hb Hij. apply board3x3_grid in Hb as (?&?&?&?&?&?&?&?&?&->).
  apply all_cells_inv in Hij.
  repeat (destruct Hij as [[= -> ->] | Hij];
    [eexists; split; [reflexivity|]; split; [apply grid_board3x3|];
     split; [reflexivity|];
     intros ij Hin Hne; apply all_cells_inv in Hin;
     repeat (destruct Hin as [-> | Hin]; [done || reflexivity|]);
     subst; done || reflexivity|]).
  injection Hij as -> ->.
  eexists; split; [reflexivity|]; split; [apply grid_board3x3|].
  split; [reflexivity|].
  intros ij Hin Hne; apply all_cells_inv in Hin.
  repeat (destruct Hin as [-> | Hin]; [done || reflexivity|]).
  subst; done || reflexivity.
Qed.

(** X5: writing a mark at a coordinate of a 3x3 board succeeds, keeps the
    shape of the board, makes that cell hold the mark, and leaves every
    other cell as it was. *)
Theorem update_board_get (b : board) (row col : Z) (player : mark) :
  board3x3 b ->
  (row, col) ∈ all_cells ->
  exists b',
    update_board b row col player = Done b' /\
    board3x3 b' /\
    board_get b' row col = Done (Some player) /\
    forall ij, ij ∈ all_cells -> ij <> (row, col) ->
               board_get b' ij.1 ij.2 = board_get b ij.1 ij.2.
Proof.
  intros Hb Hij.
  destruct (update_board_set_get b row col player Hb Hij)
    as (b' & Hup & Hshape & Hget & Hother).
  exists b'. split; [exact Hup|]. split; [exact Hshape|].
  split; [exact Hget|]. intros ij Hin Hne. by apply Hother.
Qed.

Lemma update_board_get_witness :
  exists b',
    update_board board_scenario 0 2 X = Done b' /\
    board3x3 b' /\
    board_get b' 0 2 = Done (Some X) /\
    forall ij, ij ∈ all_cells -> ij <> (0, 2) ->
               board_get b' ij.1 ij.2 = board_get board_scenario ij.1 ij.2.
Proof.
  apply (update_board_get board_scenario 0 2 X).
  - apply grid_board3x3.
  - by apply all_cells_range.
Defined.

Lemma py_index_out_of_range {A : Type} (l : list A) (i : Z) :
  ~ (- Z.of_nat (length l) <= i < Z.of_nat (length l)) ->
  py_index l i = Raised IndexError.
Proof.
  intros Hi. unfold py_index.
  destruct (Z.ltb_spec i 0);
    [destruct (Z.leb_spec 0 (i + Z.of_nat (length l))),
       (Z.ltb_spec (i + Z.of_nat (length l)) (Z.of_nat (length l)))
    |destruct (Z.leb_spec 0 i), (Z.ltb_spec i (Z.of_nat (length l)))];
    try lia; reflexivity.
Qed.

Lemma py_setitem_out_of_range {A : Type} (l : list A) (i : Z) (x : A) :
  ~ (- Z.of_nat (length l) <= i < Z.of_nat (length l)) ->
  py_setitem l i x = Raised IndexError.
Proof.
  intros Hi. unfold py_setitem.
  destruct (Z.ltb_spec i 0);
    [destruct (Z.leb_spec 0 (i + Z.of_nat (length l))),
       (Z.ltb_spec (i + Z.of_nat (length l)) (Z.of_nat (length l)))
    |destruct (Z.leb_spec 0 i), (Z.ltb_spec i (Z.of_nat (length l)))];
    try lia; reflexivity.
Qed.

(** X6: [update_board] itself checks nothing but what list indexing
    checks.  On a 3x3 board it raises [IndexError] exactly when a coordinate
    lies outside -3..2, and a negative coordinate in that range writes the
    cell counted from the end, as the coordinate plus 3 does. *)
Theorem update_board_index_range (b : board) (row col : Z) (player : mark) :
  board3x3 b ->
  (update_board b row col player = Raised IndexError <->
   ~ (-3 <= row <= 2 /\ -3 <= col <= 2))
  /\ (-3 <= row <= 2 -> -3 <= col <= 2 ->
      update_board b row col player
      = update_board b (row `mod` 3) (col `mod` 3) player).
Proof.
  intros Hb. apply board3x3_grid in Hb as (?&?&?&?&?&?&?&?&?&->).
  destruct (decide (-3 <= row <= 2)) as [Hr | Hr].
  - assert (row = -3 \/ row = -2 \/ row = -1 \/ row = 0 \/ row = 1 \/ row = 2)
      as Hrow by lia.
    destruct (decide (-3 <= col <= 2)) as [Hc | Hc].
    + assert (col = -3 \/ col = -2 \/ col = -1 \/ col = 0 \/ col = 1 \/ col = 2)
        as Hcol by lia.
      split; [|intros _ _;
               destruct Hrow as [-> | [-> | [-> | [-> | [-> | ->]]]]];
               destruct Hcol as [-> | [-> | [-> | [-> | [-> | ->]]]]];
               reflexivity].
      split; [|tauto].
      destruct Hrow as [-> | [-> | [-> | [-> | [-> | ->]]]]];
        destruct Hcol as [-> | [-> | [-> | [-> | [-> | ->]]]]]; discriminate.
    + split; [|tauto]. split; [tauto|]. intros _.
      assert (exists r, py_index (grid x x0 x1 x2 x3 x4 x5 x6 x7) row = Done r /\
                        length r = 3%nat) as (r & Hget & Hlen)
        by (destruct Hrow as [-> | [-> | [-> | [-> | [-> | ->]]]]];
            eexists; split; reflexivity).
      unfold update_board. rewrite Hget. run_simpl.
      rewrite (py_setitem_out_of_range r col) by (rewrite Hlen; lia). done.
  - split; [|tauto]. split; [tauto|]. intros _.
    unfold update_board.
    rewrite (py_index_out_of_range _ row) by (simpl; lia). done.
Qed.

Lemma update_board_index_range_witness :
  (update_board board_scenario (-1) (-3) O = Raised IndexError <->
   ~ (-3 <= -1 <= 2 /\ -3 <= -3 <= 2))
  /\ (-3 <= -1 <= 2 -> -3 <= -3 <= 2 ->
      update_board board_scenario (-1) (-3) O
      = update_board board_scenario (-1 `mod` 3) (-3 `mod` 3) O).
Proof.
  apply (update_board_index_range board_scenario (-1) (-3) O).
  apply grid_board3x3.
Defined.

(** ** The text of the board *)

Lemma string_app_cons (x : ascii) (a b : string) :
  String x a ++ b = String x (a ++ b).
Proof. reflexivity. Qed.

Lemma string_app_nil_l (b : string) : EmptyString ++ b = b.
Proof. reflexivity. Qed.

Lemma string_app_nil_r (a : string) : a ++ EmptyString = a.
Proof. induction a as [|x a IH]; [done|]. by rewrite string_app_cons, IH. Qed.

Lemma string_app_assoc (a b c : string) : (a ++ b) ++ c = a ++ (b ++ c).
Proof.
  induction a as [|x a IH]; [done|]. by rewrite !string_app_cons, IH.
Qed.

Lemma format_rows_acc (board_str : string) (i : nat) (rows : list (list cell)) :
  format_rows board_str i rows = board_str ++ format_rows EmptyString i rows.
Proof.
  revert board_str i. induction rows as [|row rows IH]; intros board_str i.
  - cbn [format_rows]. by rewrite string_app_nil_r.
  - cbn [format_rows]. rewrite IH. symmetry. rewrite IH. symmetry.
    destruct (i <? 2)%nat; by rewrite ?string_app_nil_l, ?string_app_assoc.
Qed.

Lemma print_rows_format (out : string) (i : nat) (rows : list (list cell)) :
  print_rows out i rows = out ++ format_rows EmptyString i rows.
Proof.
  revert out i. induction rows as [|row rows IH]; intros out i.
  - cbn [print_rows format_rows]. by rewrite string_app_nil_r.
  - cbn [print_rows format_rows]. rewrite IH. symmetry.
    rewrite format_rows_acc. symmetry. unfold py_print.
    destruct (i <? 2)%nat; by rewrite ?string_app_nil_l, ?string_app_assoc.
Qed.

(** X7: for a board of any size, [print_board] adds to the output an empty
    line, the heading, the very text that [format_board_for_prompt] gives
    the agents, and an empty line. *)
Theorem print_board_prints_prompt_text (out : string) (b : board) :
  print_board out b
  = out ++ nl ++ "Current board:" ++ nl ++ format_board_for_prompt b ++ nl.
Proof.
  unfold print_board, format_board_for_prompt, py_print.
  rewrite print_rows_format. by rewrite !string_app_assoc.
Qed.

Lemma append_cell_char (row_str : string) (c : cell) :
  append_cell row_str c = row_str ++ String (cell_char c) EmptyString.
Proof. by destruct c as [[]|]. Qed.

Lemma format_board_grid c00 c01 c02 c10 c11 c12 c20 c21 c22 :
  format_board_for_prompt (grid c00 c01 c02 c10 c11 c12 c20 c21 c22)
  = String (cell_char c00) (String "|" (String (cell_char c01) (String "|"
      (String (cell_char c02) (nl ++ "-----" ++ nl ++
    String (cell_char c10) (String "|" (String (cell_char c11) (String "|"
      (String (cell_char c12) (nl ++ "-----" ++ nl ++
    String (cell_char c20) (String "|" (String (cell_char c21) (String "|"
      (String (cell_char c22) nl)))))))))))))).
Proof.
  unfold format_board_for_prompt, grid.
  cbn [format_rows format_cells Nat.ltb Nat.leb].
  rewrite !append_cell_char. reflexivity.
Qed.

(** X8: the text of a 3x3 board has 30 characters, and the cell at row [i]
    and column [j] can be read back from it: the character at position
    [12 * i + 2 * j] is a blank for an empty cell and the mark for a taken
    one. *)
Theorem format_board_read_back (b : board) (i j : Z) (c : cell) :
  board3x3 b ->
  (i, j) ∈ all_cells ->
  board_get b i j = Done c ->
  String.length (format_board_for_prompt b) = 30%nat /\
  String.get (Z.to_nat (12 * i + 2 * j)) (format_board_for_prompt b)
  = Some (cell_char c).
Proof.
  intros Hb Hij Hc. apply board3x3_grid in Hb as (?&?&?&?&?&?&?&?&?&->).
  rewrite format_board_grid. split; [reflexivity|].
  apply all_cells_inv in Hij.
  repeat (destruct Hij as [[= -> ->] | Hij];
          [injection Hc as <-; reflexivity|]).
  injection Hij as -> ->. injection Hc as <-. reflexivity.
Qed.

Lemma format_board_read_back_witness :
  String.length (format_board_for_prompt board_scenario) = 30%nat /\
  String.get (Z.to_nat (12 * 1 + 2 * 1)) (format_board_for_prompt board_scenario)
  = Some (cell_char (Some O)).
Proof.
  apply (format_board_read_back board_scenario 1 1 (Some O)).
  - apply grid_board3x3.
  - by apply all_cells_range.
  - reflexivity.
Defined.

(** ** The moves the loop submits *)

Lemma is_valid_move_candidate_empty (b : board) (row col : Z) :
  is_valid_move_candidate b (Some row) (Some col) = true <->
  (row, col) ∈ all_cells /\ empty_at b (row, col).
Proof.
  unfold is_valid_move_candidate, empty_at. rewrite all_cells_range. cbn [fst snd].
  destruct (Z.leb_spec 0 row), (Z.leb_spec row 2), (Z.leb_spec 0 col),
    (Z.leb_spec col 2); simpl; try (split; [discriminate | lia]).
  destruct (board_get b row col) as [cl| |].
  - rewrite bool_decide_eq_true. split; [intros ->; split; [lia | done]|].
    by intros [_ [= ->]].
  - split; [discriminate | by intros [_ ?]].
  - split; [discriminate | by intros [_ ?]].
Qed.

Lemma get_default_move_empty (rnd : nat) (b : board) :
  board3x3 b -> empties b <> [] ->
  exists d, get_default_move rnd b = Done d /\ d ∈ empties b.
Proof.
  intros Hb HE. destruct (get_default_move_cases rnd b Hb HE) as (d & Hd & Hc).
  exists d. split; [done|].
  destruct Hc as [H | [[_ H] | [(_ & _ & H) | (_ & _ & _ & H)]]];
    try apply available_elem in H as [H _]; done.
Qed.

Lemma get_default_move_full (rnd : nat) (b : board) :
  board3x3 b -> empties b = [] -> get_default_move rnd b = Done (0, 0).
Proof.
  intros Hb HE. unfold get_default_move. rewrite (empty_cells_run b Hb).
  run_simpl. by rewrite HE.
Qed.

(** X9: the move of [get_default_move] on a 3x3 board passes
    [is_valid_move_candidate] exactly when the board has an empty cell; on a
    board without one it is (0, 0), which the validation refuses. *)
Theorem get_default_move_valid_iff (rnd : nat) (b : board) :
  board3x3 b ->
  exists d,
    get_default_move rnd b = Done d /\
    (is_valid_move_candidate b (Some d.1) (Some d.2) = true <->
     exists ij, ij ∈ all_cells /\ empty_at b ij) /\
    ((forall ij, ij ∈ all_cells -> ~ empty_at b ij) -> d = (0, 0)).
Proof.
  intros Hb. destruct (decide (empties b = [])) as [HE | HE].
  - exists (0, 0). split; [by apply get_default_move_full|]. split; [|done].
    assert (forall ij, ij ∈ all_cells -> ~ empty_at b ij) as Hnone.
    { intros ij Hin He. by apply (empties_nonempty b ij Hin He). }
    cbn [fst snd]. rewrite is_valid_move_candidate_empty. split.
    + intros [Hin He]. by destruct (Hnone _ Hin He).
    + intros (ij & Hin & He). by destruct (Hnone _ Hin He).
  - destruct (get_default_move_empty rnd b Hb HE) as ([i j] & Hd & Hin).
    apply empties_elem in Hin as [He Hin].
    exists (i, j). split; [done|]. cbn [fst snd].
    rewrite is_valid_move_candidate_empty. split.
    + split; [by exists (i, j) | done].
    + intros Hnone. by destruct (Hnone _ Hin He).
Qed.

Lemma get_default_move_valid_iff_witness :
  exists d,
    get_default_move 4 board_scenario = Done d /\
    (is_valid_move_candidate board_scenario (Some d.1) (Some d.2) = true <->
     exists ij, ij ∈ all_cells /\ empty_at board_scenario ij) /\
    ((forall ij, ij ∈ all_cells -> ~ empty_at board_scenario ij) -> d = (0, 0)).
Proof.
  apply (get_default_move_valid_iff 4 board_scenario). apply grid_board3x3.
Defined.

(** A 3x3 board on which [check_winner] finds nothing has an empty cell. *)
Lemma check_winner_none_empty (b : board) :
  board3x3 b -> check_winner b = Done None ->
  exists ij, ij ∈ all_cells /\ empty_at b ij.
Proof.
  intros Hb Hw. pose proof Hb as Hb'.
  apply board3x3_grid in Hb' as (c00&c01&c02&c10&c11&c12&c20&c21&c22&->).
  pose proof (check_winner_grid c00 c01 c02 c10 c11 c12 c20 c21 c22) as H.
  unfold check_winner_ok in H. rewrite Hw in H.
  destruct H as (_ & _ & _ & _ & [Hnone _]).
  destruct (Hnone eq_refl) as [Hnf _].
  apply not_Forall_Exists in Hnf; [|apply _].
  apply Exists_exists in Hnf as (ij & Hin & Hn).
  exists ij. split; [done|].
  destruct (board_get_total _ ij Hb Hin) as [[m|] Hc]; [|done].
  exfalso. apply Hn. by exists m.
Qed.

(** The two moves of a turn, with what the loop does with them. *)
Lemma loop_body_run_moves json_loads (e : ply_env) (c : coordinator) (v : loop_vars) :
  board3x3 (game_board c) ->
  check_winner (game_board c) = Done None ->
  exists mv fb b1 b2,
    (mv ∈ all_cells /\ empty_at (game_board c) mv) /\
    (fb ∈ all_cells /\ empty_at (game_board c) fb) /\
    update_board (game_board c) mv.1 mv.2 (current_player c) = Done b1 /\
    update_board (game_board c) fb.1 fb.2 (current_player c) = Done b2 /\
    get_move_from_agent (agent_reply e) (rnd_agent e) (game_board c) = Done mv /\
    fallback_move (rnd_fallback e) (game_board c) mv.1 mv.2 = Done fb /\
    loop_body json_loads e c v =
      (ok ← first_submission json_loads e c mv;
       if ok : bool then
         Done (Next (Coordinator b1 (switch_player (current_player c)) (require_onchain c))
                    (LoopVars (S (move_count v)) 0 (Some mv)))
       else
         ok' ← second_submission json_loads e c fb;
         if ok' : bool then
           Done (Next (Coordinator b2 (switch_player (current_player c)) (require_onchain c))
                      (LoopVars (S (move_count v)) 0 (Some fb)))
         else
           Done (Next c (LoopVars (move_count v) (S (consecutive_failures v)) (Some fb)))).
Proof.
  intros Hb Hw.
  destruct (check_winner_none_empty _ Hb Hw) as (e0 & He0in & He0).
  pose proof (empties_nonempty _ e0 He0in He0) as HE.
  assert (forall rnd, exists d, get_default_move rnd (game_board c) = Done d /\
            d ∈ all_cells /\ empty_at (game_board c) d) as Hdef.
  { intros rnd. destruct (get_default_move_empty rnd _ Hb HE) as (d & Hd & Hin).
    apply empties_elem in Hin as [? ?]. by exists d. }
  assert (exists mv, get_move_from_agent (agent_reply e) (rnd_agent e) (game_board c)
                     = Done mv /\ mv ∈ all_cells /\ empty_at (game_board c) mv)
    as ([row col] & Hmv & Hmvin & Hmve).
  { unfold get_move_from_agent.
    destruct (agent_reply e) as [[[row|] [col|]]|]; try apply Hdef.
    destruct (is_valid_move_candidate (game_board c) (Some row) (Some col)) eqn:Hv;
      [|apply Hdef].
    apply is_valid_move_candidate_empty in Hv as [? ?]. by exists (row, col). }
  destruct (fallback_move_cases (rnd_fallback e) (game_board c) row col Hb)
    as (d & [drow dcol] & Hd & Hfb & Hfbin & Hcases).
  assert (empty_at (game_board c) (drow, dcol)) as Hfbe.
  { destruct (Hdef (rnd_fallback e)) as (d' & Hd' & _ & Hde).
    rewrite Hd in Hd'. injection Hd' as <-.
    destruct Hcases as [[_ ->] | [(_ & ? & _) | (_ & -> & _)]]; done. }
  destruct (update_board_total _ (row, col) (current_player c) Hb Hmvin)
    as (b1 & Hb1 & _).
  destruct (update_board_total _ (drow, dcol) (current_player c) Hb Hfbin)
    as (b2 & Hb2 & _).
  exists (row, col), (drow, dcol), b1, b2. split_and!; try done.
  unfold loop_body, first_submission, second_submission. rewrite Hw. run_simpl.
  rewrite Hmv. run_simpl. cbn [fst snd] in *.
  destruct (execute_move json_loads c (current_player c) row col
              (signer_of (current_player c)) (rpc_move e)) as [[|]| |];
    run_simpl; try done.
  - unfold accept_move. rewrite Hb1. by run_simpl.
  - rewrite Hfb. run_simpl.
    destruct (execute_move json_loads c (current_player c) drow dcol
                (signer_of (current_player c)) (rpc_fallback e)) as [[|]| |];
      run_simpl; try done.
    unfold accept_move. rewrite Hb2. by run_simpl.
Qed.

(** How a turn that reaches the end of the body changes the state. *)
Lemma loop_body_next json_loads (e : ply_env) (c c' : coordinator)
    (v v' : loop_vars) :
  board3x3 (game_board c) ->
  loop_body json_loads e c v = Done (Next c' v') ->
  check_winner (game_board c) = Done None /\
  ((c' = c /\ move_count v' = move_count v /\
    consecutive_failures v' = S (consecutive_failures v))
   \/ (exists ij,
         ij ∈ all_cells /\ empty_at (game_board c) ij /\
         update_board (game_board c) ij.1 ij.2 (current_player c)
         = Done (game_board c') /\
         last_move v' = Some ij /\
         current_player c' = switch_player (current_player c) /\
         require_onchain c' = require_onchain c /\
         move_count v' = S (move_count v) /\
         consecutive_failures v' = 0%nat)).
Proof.
  intros Hb Hstep.
  destruct (check_winner (game_board c)) as [[w|]| |] eqn:Hw;
    try (unfold loop_body in Hstep; rewrite Hw in Hstep; discriminate).
  split; [done|].
  destruct (loop_body_run_moves json_loads e c v Hb Hw)
    as (mv & fb & b1 & b2 & [Hmvin Hmve] & [Hfbin Hfbe] & Hb1 & Hb2 & _ & _ & Hbody).
  rewrite Hbody in Hstep.
  destruct (first_submission json_loads e c mv) as [[|]| |]; try discriminate.
  - injection Hstep as <- <-. right. exists mv. by split_and!.
  - revert Hstep. run_simpl.
    destruct (second_submission json_loads e c fb) as [[|]| |]; try discriminate.
    + intros [= <- <-]. right. exists fb. by split_and!.
    + intros [= <- <-]. by left.
Qed.

(** X10: a turn of the loop on a 3x3 board either leaves the board, the
    side to move and the move counter as they are, or writes the mark of the
    side to move into one cell that was empty, records that cell as the last
    move and counts one move more.  No mark is ever overwritten. *)
Theorem loop_body_fills_empty_cell json_loads (e : ply_env) (c c' : coordinator)
    (v v' : loop_vars) :
  board3x3 (game_board c) ->
  loop_body json_loads e c v = Done (Next c' v') ->
  (c' = c /\ move_count v' = move_count v)
  \/ (exists ij,
        ij ∈ all_cells /\ empty_at (game_board c) ij /\
        update_board (game_board c) ij.1 ij.2 (current_player c)
        = Done (game_board c') /\
        board_get (game_board c') ij.1 ij.2 = Done (Some (current_player c)) /\
        (forall kl, kl ∈ all_cells -> kl <> ij ->
           board_get (game_board c') kl.1 kl.2 = board_get (game_board c) kl.1 kl.2) /\
        last_move v' = Some ij /\
        move_count v' = S (move_count v)).
Proof.
  intros Hb Hstep.
  destruct (loop_body_next json_loads e c c' v v' Hb Hstep)
    as [_ [(-> & Hm & _) | ([i j] & Hin & He & Hup & Hlast & _ & _ & Hm & _)]].
  - by left.
  - right. exists (i, j). cbn [fst snd] in *.
    destruct (update_board_set_get (game_board c) i j (current_player c) Hb Hin)
      as (b' & Hup' & _ & Hget & Hother).
    rewrite Hup in Hup'. injection Hup' as <-. by split_and!.
Qed.

(** ** The game as a whole *)

(** Decides the tests of [count_mark] on cells that are known. *)
Ltac count_known :=
  repeat first
    [ rewrite (bool_decide_eq_true_2 _ eq_refl)
    | rewrite (bool_decide_eq_false_2 (@None mark = Some _)) by discriminate
    | rewrite (bool_decide_eq_false_2 (Some X = Some O)) by discriminate
    | rewrite (bool_decide_eq_false_2 (Some O = Some X)) by discriminate
    | rewrite (bool_decide_eq_false_2 (X = O)) by discriminate
    | rewrite (bool_decide_eq_false_2 (O = X)) by discriminate ].

Lemma count_mark_update (b b' : board) (ij : Z * Z) (player m : mark) :
  board3x3 b -> ij ∈ all_cells -> empty_at b ij ->
  update_board b ij.1 ij.2 player = Done b' ->
  count_mark m b'
  = (count_mark m b + if bool_decide (m = player) then 1 else 0)%nat.
Proof.
  intros Hb Hin He Hup.
  apply board3x3_grid in Hb as (c00&c01&c02&c10&c11&c12&c20&c21&c22&->).
  unfold empty_at in He. apply all_cells_inv in Hin.
  repeat (destruct Hin as [-> | Hin];
    [injection He as ->; injection Hup as <-;
     unfold count_mark; cbn [grid concat app sum_list_with];
     destruct player, m; count_known; lia|]).
  subst ij. injection He as ->. injection Hup as <-.
  unfold count_mark. cbn [grid concat app sum_list_with].
  destruct player, m; count_known; lia.
Qed.

Lemma game_invariant_initial (require_onchain : bool) :
  game_invariant (initial_coordinator require_onchain) initial_vars.
Proof.
  split; [apply grid_board3x3|]. split; [reflexivity|]. split; [reflexivity|].
  simpl. unfold max_consecutive_failures. lia.
Qed.

Lemma game_invariant_step json_loads (e : ply_env) (c c' : coordinator)
    (v v' : loop_vars) :
  game_invariant c v ->
  (consecutive_failures v < max_consecutive_failures)%nat ->
  loop_body json_loads e c v = Done (Next c' v') ->
  game_invariant c' v'.
Proof.
  intros (Hb & Htotal & Hdiff & Hcf) Hguard Hstep.
  pose proof (loop_body_board3x3 json_loads e c c' v v' Hb Hstep) as Hb'.
  destruct (loop_body_next json_loads e c c' v v' Hb Hstep)
    as [_ [(-> & Hm & Hf) | (ij & Hin & He & Hup & _ & Hp & _ & Hm & Hf)]].
  - split; [done|]. split; [by rewrite Hm|]. split; [done|]. rewrite Hf. lia.
  - pose proof (count_mark_update _ _ ij (current_player c) X Hb Hin He Hup) as HX.
    pose proof (count_mark_update _ _ ij (current_player c) O Hb Hin He Hup) as HO.
    split; [done|]. rewrite Hm, Hf, Hp, HX, HO.
    destruct (current_player c); simpl in *; split_and!; lia.
Qed.

Lemma game_loop_final json_loads (envs : list ply_env)
    (c c' : coordinator) (v v' : loop_vars) :
  game_invariant c v ->
  game_loop json_loads envs c v = Done (c', v') ->
  game_invariant c' v' /\ loop_finished c' v'.
Proof.
  revert c v. induction envs as [|e envs IH]; intros c v Hinv; cbn [game_loop].
  - destruct (bool_decide (move_count v < max_moves)%nat) eqn:Hm;
      destruct (bool_decide (consecutive_failures v < max_consecutive_failures)%nat)
        eqn:Hf; cbn [andb]; try discriminate; intros [= <- <-];
      (split; [done|]).
    + right; left. apply bool_decide_eq_false in Hf. lia.
    + left. apply bool_decide_eq_false in Hm. lia.
    + left. apply bool_decide_eq_false in Hm. lia.
  - destruct (bool_decide (move_count v < max_moves)%nat) eqn:Hm;
      destruct (bool_decide (consecutive_failures v < max_consecutive_failures)%nat)
        eqn:Hf; cbn [andb].
    2,3,4: intros [= <- <-]; (split; [done|]).
    + destruct (loop_body json_loads e c v) as [[|c1 v1]| |] eqn:Hbody;
        run_simpl; try discriminate.
      * intros [= <- <-]. split; [done|]. right; right.
        unfold loop_body in Hbody.
        destruct (check_winner (game_board c)) as [[w|]| |]; try discriminate.
        { by exists w. }
        revert Hbody. run_simpl.
        destruct (get_move_from_agent (agent_reply e) (rnd_agent e) (game_board c))
          as [[row col]| |]; run_simpl; try discriminate.
        destruct (execute_move json_loads c (current_player c) row col
                    (signer_of (current_player c)) (rpc_move e)) as [[|]| |];
          run_simpl; try discriminate.
        { unfold accept_move.
          destruct (update_board (game_board c) row col (current_player c));
            run_simpl; discriminate. }
        destruct (fallback_move (rnd_fallback e) (game_board c) row col)
          as [[drow dcol]| |]; run_simpl; try discriminate.
        destruct (execute_move json_loads c (current_player c) drow dcol
                    (signer_of (current_player c)) (rpc_fallback e)) as [[|]| |];
          run_simpl; try discriminate.
        unfold accept_move.
        destruct (update_board (game_board c) drow dcol (current_player c));
          run_simpl; discriminate.
      * apply IH. apply bool_decide_eq_true in Hf.
        by apply (game_invariant_step json_loads e c c1 v v1).
    + right; left. apply bool_decide_eq_false in Hf. lia.
    + left. apply bool_decide_eq_false in Hm. lia.
    + left. apply bool_decide_eq_false in Hm. lia.
Qed.

(** X11: in a game started from the empty board with X to move, whenever
    the loop ends the board still has its shape, [move_count] is the number
    of marks on the board, X has as many marks as O when X is to move and
    one more when O is, and the failure counter is at most 3; and the loop
    ends for one of three reasons only: nine moves made, three turns refused
    in a row, or a board on which [check_winner] finds a winner or a
    draw. *)
Theorem game_loop_invariant json_loads (envs : list ply_env)
    (c c' : coordinator) (v v' : loop_vars) :
  game_invariant c v ->
  game_loop json_loads envs c v = Done (c', v') ->
  game_invariant c' v' /\ loop_finished c' v'.
Proof.
  intros Hinv Hrun.
  destruct (game_loop_final json_loads envs c c' v v' Hinv Hrun) as [Hinv' Hfin].
  split; [exact Hinv' | exact Hfin].
Qed.

Lemma game_loop_invariant_witness :
  game_invariant (initial_coordinator true) (LoopVars 0 3 (Some (0, 0)))
  /\ loop_finished (initial_coordinator true) (LoopVars 0 3 (Some (0, 0))).
Proof.
  apply (game_loop_invariant sample_loads [env_refusing; env_refusing; env_refusing]
           (initial_coordinator true) _ initial_vars _).
  - apply game_invariant_initial.
  - vm_compute. reflexivity.
Defined.

Lemma check_winner_total (b : board) :
  board3x3 b -> exists r, check_winner b = Done r.
Proof.
  intros Hb. apply board3x3_grid in Hb as (c00&c01&c02&c10&c11&c12&c20&c21&c22&->).
  pose proof (check_winner_grid c00 c01 c02 c10 c11 c12 c20 c21 c22) as H.
  unfold check_winner_ok in H.
  destruct (check_winner (grid c00 c01 c02 c10 c11 c12 c20 c21 c22)) as [r| |];
    [by exists r | done | done].
Qed.

Lemma execute_move_not_waiting json_loads (c : coordinator) (player : mark)
    (row col : Z) (signer : string) (server : command -> rpc_trace) :
  send_mcp_request json_loads (server (Command player row col signer)) <> Waiting ->
  execute_move json_loads c player row col signer server <> Waiting.
Proof.
  unfold execute_move.
  by destruct (send_mcp_request json_loads (server (Command player row col signer))).
Qed.

(** X12: the loop takes at most 27 turns.  On a 3x3 board, when the
    server answers every submission, a record of
    [3 * (9 - move_count) - consecutive_failures] turns is enough for the
    loop to end, by reaching its end or by an exception; it is never still
    running after that many turns. *)
Theorem game_loop_terminates json_loads (envs : list ply_env)
    (c : coordinator) (v : loop_vars) :
  board3x3 (game_board c) ->
  Forall (answers json_loads) envs ->
  (turns_left v <= length envs)%nat ->
  game_loop json_loads envs c v <> Waiting.
Proof.
  revert c v. induction envs as [|e envs IH]; intros c v Hb Hans Hlen;
    cbn [game_loop].
  - destruct (bool_decide (move_count v < max_moves)%nat) eqn:Hm;
      destruct (bool_decide (consecutive_failures v < max_consecutive_failures)%nat)
        eqn:Hf; cbn [andb]; try discriminate.
    apply bool_decide_eq_true in Hm, Hf.
    unfold turns_left, max_moves, max_consecutive_failures in *. simpl in Hlen. lia.
  - destruct (bool_decide (move_count v < max_moves)%nat) eqn:Hm;
      destruct (bool_decide (consecutive_failures v < max_consecutive_failures)%nat)
        eqn:Hf; cbn [andb]; try discriminate.
    apply bool_decide_eq_true in Hm, Hf.
    apply Forall_cons in Hans as [He Hans].
    destruct (check_winner_total _ Hb) as [[w|] Hw].
    { unfold loop_body. rewrite Hw. run_simpl. discriminate. }
    destruct (loop_body_run json_loads e c v Hb Hw)
      as (mv & fb & b1 & b2 & _ & _ & Hb1 & Hb2 & ->).
    pose proof (execute_move_not_waiting json_loads c (current_player c) mv.1 mv.2
                  (signer_of (current_player c)) (rpc_move e) (proj1 (He _))) as H1.
    pose proof (execute_move_not_waiting json_loads c (current_player c) fb.1 fb.2
                  (signer_of (current_player c)) (rpc_fallback e) (proj2 (He _))) as H2.
    unfold first_submission, second_submission.
    destruct (execute_move json_loads c (current_player c) mv.1 mv.2
                (signer_of (current_player c)) (rpc_move e)) as [[|]| |];
      run_simpl; try done.
    + apply IH; [done | done|].
      unfold turns_left, max_moves, max_consecutive_failures in *.
      simpl in *. lia.
    + destruct (execute_move json_loads c (current_player c) fb.1 fb.2
                  (signer_of (current_player c)) (rpc_fallback e)) as [[|]| |];
        run_simpl; try done.
      * apply IH; [done | done|].
        unfold turns_left, max_moves, max_consecutive_failures in *.
        simpl in *. lia.
      * apply IH; [done | done|].
        unfold turns_left, max_moves, max_consecutive_failures in *.
        simpl in *. lia.
Qed.

Lemma game_loop_terminates_witness :
  game_loop sample_loads [env_refusing; env_refusing; env_refusing]
    (initial_coordinator true) (LoopVars 8 0 None) <> Waiting.
Proof.
  apply (game_loop_terminates sample_loads [env_refusing; env_refusing; env_refusing]
           (initial_coordinator true) (LoopVars 8 0 None)).
  - apply grid_board3x3.
  - repeat constructor; vm_compute; discriminate.
  - vm_compute. lia.
Defined.

(** X13: an exception of [send_mcp_request] during either submission of a
    turn leaves the loop as it is raised: the turn is not counted as a
    refusal and no later turn is played.  For the second submission this
    holds after the first one has been refused. *)
Theorem game_loop_exception_escapes json_loads (e : ply_env)
    (envs : list ply_env) (c : coordinator) (v : loop_vars) (ex : exn) :
  board3x3 (game_board c) ->
  check_winner (game_board c) = Done None ->
  (move_count v < max_moves)%nat ->
  (consecutive_failures v < max_consecutive_failures)%nat ->
  (forall cmd, send_mcp_request json_loads (rpc_move e cmd) = Raised ex)
  \/ ((forall mv, first_submission json_loads e c mv = Done false) /\
      forall cmd, send_mcp_request json_loads (rpc_fallback e cmd) = Raised ex) ->
  game_loop json_loads (e :: envs) c v = Raised ex.
Proof.
  intros Hb Hw Hm Hf Hex.
  destruct (loop_body_run json_loads e c v Hb Hw)
    as (mv & fb & b1 & b2 & _ & _ & _ & _ & Hbody).
  cbn [game_loop]. rewrite !bool_decide_eq_true_2 by done. cbn [andb].
  rewrite Hbody. destruct Hex as [H1 | [H1 H2]].
  - unfold first_submission, execute_move. rewrite H1. by run_simpl.
  - rewrite H1. run_simpl.
    unfold second_submission, execute_move. rewrite H2. by run_simpl.
Qed.

Lemma game_loop_exception_escapes_witness :
  game_loop sample_loads
    [PlyEnv None 0 (server_printing line_error_and_result) 0 server_gone]
    (initial_coordinator false) initial_vars
  = Raised TimeoutError.
Proof.
  apply (game_loop_exception_escapes sample_loads
           (PlyEnv None 0 (server_printing line_error_and_result) 0 server_gone)
           [] (initial_coordinator false) initial_vars TimeoutError).
  - apply grid_board3x3.
  - reflexivity.
  - vm_compute. lia.
  - vm_compute. lia.
  - right. split; [intros mv; vm_compute; reflexivity | intros cmd; reflexivity].
Defined.

(** ** Start-up *)

Lemma prefix_app (u r : string) : String.prefix u (u ++ r) = true.
Proof.
  induction u as [|x u IH]; [by destruct r|].
  rewrite string_app_cons. cbn [String.prefix].
  by destruct (ascii_dec x x).
Qed.

Lemma prefix_inv (t s : string) :
  String.prefix t s = true -> exists r, s = t ++ r.
Proof.
  revert s. induction t as [|x t IH]; intros s H.
  - by exists s.
  - destruct s as [|y s]; [discriminate|]. cbn [String.prefix] in H.
    destruct (ascii_dec x y) as [-> |]; [|discriminate].
    destruct (IH s H) as [r ->]. by exists r.
Qed.

Lemma contains_app (a u r : string) : contains (a ++ u ++ r) u = true.
Proof.
  induction a as [|x a IH].
  - rewrite string_app_nil_l. destruct (u ++ r) eqn:E; cbn [contains];
      rewrite <- E, prefix_app; done.
  - rewrite string_app_cons. cbn [contains]. rewrite IH. apply orb_true_r.
Qed.

Lemma contains_inv (s t : string) :
  contains s t = true -> exists a b, s = a ++ t ++ b.
Proof.
  induction s as [|x s IH]; cbn [contains].
  - rewrite orb_false_r. intros [r Hr]%prefix_inv. by exists EmptyString, r.
  - intros [H | H]%orb_true_iff.
    + apply prefix_inv in H as [r Hr]. by exists EmptyString, r.
    + destruct (IH H) as (a & b & ->). by exists (String x a), b.
Qed.

(** A string that contains [a ++ u] contains [u]. *)
Lemma contains_suffix (s a u : string) :
  contains s (a ++ u) = true -> contains s u = true.
Proof.
  intros (p & b & ->)%contains_inv.
  rewrite (string_app_assoc a u b), <- (string_app_assoc p a (u ++ b)).
  apply contains_app.
Qed.

Lemma wait_for_server_skip lower (pre rest : rpc_trace) :
  Forall (not_ready lower) pre ->
  wait_for_server lower (pre ++ rest)%list = wait_for_server lower rest.
Proof.
  induction 1 as [|[t l] pre [Ht Hl] _ IH]; [done|]. simpl in *.
  assert (Qle_bool 90 t = false) as ->.
  { destruct (Qle_bool 90 t) eqn:E; [|done].
    apply Qle_bool_iff in E. by destruct (Qlt_not_le _ _ Ht). }
  simpl. destruct Hl as [-> | Hl]; [done|].
  rewrite Hl. by destruct (String.eqb l EmptyString).
Qed.

Lemma wait_for_server_ready lower (pre post : rpc_trace) (elapsed : Q)
    (line marker : string) :
  Forall (not_ready lower) pre ->
  (elapsed < 90)%Q -> line <> EmptyString ->
  marker ∈ readiness_markers ->
  contains (lower (py_strip line)) marker = true ->
  wait_for_server lower (pre ++ (elapsed, line) :: post)%list
  = Done (true, contains (lower (py_strip line)) "offline mode").
Proof.
  intros Hpre Ht Hline Hin Hm. rewrite wait_for_server_skip by done.
  cbn [wait_for_server].
  assert (Qle_bool 90 elapsed = false) as ->.
  { destruct (Qle_bool 90 elapsed) eqn:E; [|done].
    apply Qle_bool_iff in E. by destruct (Qlt_not_le _ _ Ht). }
  cbn [negb]. destruct (String.eqb_spec line EmptyString); [done|].
  assert (existsb (fun marker => contains (lower (py_strip line)) marker)
                  readiness_markers = true) as ->; [|done].
  apply existsb_exists. exists marker. split; [by apply list_elem_of_In | done].
Qed.

Lemma wait_for_server_deadline lower (pre post : rpc_trace) (elapsed : Q)
    (line : string) :
  Forall (not_ready lower) pre ->
  (90 <= elapsed)%Q ->
  wait_for_server lower (pre ++ (elapsed, line) :: post)%list = Done (false, false).
Proof.
  intros Hpre Ht. rewrite wait_for_server_skip by done. simpl.
  apply Qle_bool_iff in Ht. by rewrite Ht.
Qed.

(** X14: the waiting loop of [__init__], turn by turn.  It passes over the
    turns without a line and the lines without a marker; the first line read
    in a turn entered before 90 seconds whose stripped, lower-cased text
    contains a marker ends the wait as ready, and that line alone decides
    the offline flag; a turn whose test is made at 90 seconds or later ends
    the wait as not ready.  The test is made between reads only: a first
    line with a marker ends the wait as ready at whatever time it arrives,
    and while the server prints nothing the loop stays in its read. *)
Theorem wait_for_server_first_marker lower (pre post : rpc_trace)
    (elapsed : Q) (line : string) :
  Forall (not_ready lower) pre ->
  wait_for_server lower pre = Waiting
  /\ (forall marker, (elapsed < 90)%Q -> line <> EmptyString ->
        marker ∈ readiness_markers ->
        contains (lower (py_strip line)) marker = true ->
        wait_for_server lower (pre ++ (elapsed, line) :: post)%list
        = Done (true, contains (lower (py_strip line)) "offline mode"))
  /\ ((90 <= elapsed)%Q ->
        wait_for_server lower (pre ++ (elapsed, line) :: post)%list
        = Done (false, false))
  /\ (forall marker arrival, line <> EmptyString ->
        marker ∈ readiness_markers ->
        contains (lower (py_strip line)) marker = true ->
        wait_for_server lower (blocking_turns [(arrival, line)])
        = Done (true, contains (lower (py_strip line)) "offline mode"))
  /\ wait_for_server lower (blocking_turns []) = Waiting.
Proof.
  intros Hpre. split; [|split; [|split; [|split]]].
  - rewrite <- (app_nil_r pre). by rewrite wait_for_server_skip.
  - intros marker Ht Hline Hin Hm. by eapply wait_for_server_ready.
  - intros Ht. by apply wait_for_server_deadline.
  - intros marker arrival Hline Hin Hm.
    by apply (wait_for_server_ready lower [] [] 0 line marker).
  - reflexivity.
Qed.

Lemma not_ready_compiling :
  not_ready string_lower
    (2 # 1, "   Compiling kdapp v0.1.0" ++ String "010" EmptyString)%Q.
Proof. split; [reflexivity | right; vm_compute; reflexivity]. Qed.

Lemma wait_for_server_first_marker_witness :
  wait_for_server string_lower startup_offline = Done (true, true)
  /\ wait_for_server string_lower startup_too_slow = Done (false, false).
Proof.
  split.
  - refine (proj1 (proj2 (wait_for_server_first_marker string_lower
      [(2 # 1, "   Compiling kdapp v0.1.0" ++ String "010" EmptyString)]%Q []
      (40 # 1)%Q
      ("WARN Could not reach the node; Server continues in OFFLINE mode"
       ++ String "010" EmptyString) _))
      "continues in offline mode" _ _ _ _).
    + constructor; [apply not_ready_compiling | constructor].
    + reflexivity.
    + discriminate.
    + unfold readiness_markers. do 2 right. left.
    + vm_compute. reflexivity.
  - refine (proj1 (proj2 (proj2 (wait_for_server_first_marker string_lower
      [(2 # 1, "   Compiling kdapp v0.1.0" ++ String "010" EmptyString)]%Q []
      (90 # 1)%Q
      ("    Finished dev [unoptimized] target(s)" ++ String "010" EmptyString) _))) _).
    + constructor; [apply not_ready_compiling | constructor].
    + discriminate.
Defined.

(** X15: when the line that ends the wait contains (in lower case) one of
    the two offline markers, [__init__] builds a coordinator with on-chain
    enforcement off; with any marker, enforcement is on exactly when that
    line does not contain the words offline mode.  The board is empty, X is
    to move and no episode is known. *)
Theorem coordinator_init_enforcement lower json_loads (pre post : rpc_trace)
    (elapsed : Q) (line marker : string) (drain : option string)
    (pubkeys : rpc_trace) (a1 a2 : pyval) :
  Forall (not_ready lower) pre ->
  (elapsed < 90)%Q -> line <> EmptyString ->
  marker ∈ readiness_markers ->
  contains (lower (py_strip line)) marker = true ->
  fetch_pubkeys json_loads pubkeys = Done (a1, a2) ->
  coordinator_init lower json_loads (pre ++ (elapsed, line) :: post)%list
    drain pubkeys
  = Returned (Session (Coordinator empty_board X
                         (negb (contains (lower (py_strip line)) "offline mode")))
                      a1 a2 PNone)
  /\ (marker = "continues in offline mode" \/
      marker = "server continues in offline mode" ->
      contains (lower (py_strip line)) "offline mode" = true).
Proof.
  intros Hpre Ht Hline Hin Hm Hpk. split.
  - unfold coordinator_init.
    rewrite (wait_for_server_ready lower pre post elapsed line marker) by done.
    cbn [lift mbind outcome_bind negb]. rewrite Hpk. reflexivity.
  - intros [-> | ->].
    + by apply (contains_suffix _ "continues in ").
    + by apply (contains_suffix _ "server continues in ").
Qed.

Lemma coordinator_init_enforcement_witness :
  coordinator_init string_lower sample_loads startup_offline None
    (server_silent (Command X 0 0 EmptyString))
  = Returned (Session (Coordinator empty_board X false) PNone PNone PNone).
Proof.
  refine (proj1 (coordinator_init_enforcement string_lower sample_loads
    [(2 # 1, "   Compiling kdapp v0.1.0" ++ String "010" EmptyString)]%Q []
    (40 # 1)%Q
    ("WARN Could not reach the node; Server continues in OFFLINE mode"
     ++ String "010" EmptyString)
    "continues in offline mode" None
    (server_silent (Command X 0 0 EmptyString)) PNone PNone _ _ _ _ _ _)).
  - constructor; [apply not_ready_compiling | constructor].
  - reflexivity.
  - discriminate.
  - unfold readiness_markers. do 2 right. left.
  - vm_compute. reflexivity.
  - vm_compute. reflexivity.
Defined.

(** X16: the two failures of [__init__] are treated differently.  When the
    wait ends without a marker, the rest of the server's output is read
    first: once that read has come back the constructor raises
    [RuntimeError] and the query for the keys is never sent, and as long as
    the server keeps its output open the read does not come back and
    nothing is raised.  When the wait succeeds, an exception of the query
    for the keys (its time-out included) is caught, and the coordinator is
    built with both keys [None]. *)
Theorem coordinator_init_failures lower json_loads (startup pubkeys : rpc_trace)
    (offline : bool) :
  (wait_for_server lower startup = Done (false, offline) ->
   (forall remaining,
      coordinator_init lower json_loads startup (Some remaining) pubkeys
      = Thrown RuntimeError) /\
   coordinator_init lower json_loads startup None pubkeys = Pending)
  /\ (wait_for_server lower startup = Done (true, offline) ->
      forall drain ex, send_mcp_request json_loads pubkeys = Raised ex ->
      coordinator_init lower json_loads startup drain pubkeys
      = Returned (Session (Coordinator empty_board X (negb offline))
                          PNone PNone PNone)).
Proof.
  split.
  - intros Hw. unfold coordinator_init. rewrite Hw. by split.
  - intros Hw drain ex Hex. unfold coordinator_init, fetch_pubkeys.
    rewrite Hw, Hex. reflexivity.
Qed.

Lemma coordinator_init_failures_witness :
  coordinator_init string_lower sample_loads startup_too_slow (Some EmptyString)
    (server_printing line_txid_result (Command X 0 0 EmptyString))
  = Thrown RuntimeError
  /\ coordinator_init string_lower sample_loads startup_too_slow None
       (server_printing line_txid_result (Command X 0 0 EmptyString))
     = Pending
  /\ coordinator_init string_lower sample_loads startup_build_finished None
       (server_gone (Command X 0 0 EmptyString))
     = Returned (Session (Coordinator empty_board X true) PNone PNone PNone).
Proof.
  split; [|split].
  - apply (proj1 (coordinator_init_failures string_lower sample_loads
             startup_too_slow _ false)).
    vm_compute. reflexivity.
  - apply (proj1 (coordinator_init_failures string_lower sample_loads
             startup_too_slow _ false)).
    vm_compute. reflexivity.
  - apply (proj2 (coordinator_init_failures string_lower sample_loads
             startup_build_finished _ false)) with (ex := TimeoutError).
    + vm_compute. reflexivity.
    + reflexivity.
Defined.

(** ** start_game *)

Lemma start_game_unfold json_loads (s : session) (a1 a2 : pyval) (e : start_env) :
  start_game json_loads s a1 a2 e =
  (response ← lift (send_mcp_request json_loads
                      (rpc_start e (py_or (agent1_pubkey s) a1,
                                    py_or (agent2_pubkey s) a2)));
   found ← py_in "result" response;
   if found : bool then
     eid ← py_getitem "result" response;
     state ← get_game_state json_loads
                (Session (coord s) (agent1_pubkey s) (agent2_pubkey s) eid)
                (rpc_state e);
     _ ← match state with
         | PDict st => if truthy state then state_participants st else mret PNone
         | _ => mret PNone
         end;
     mret (true, Session (coord s) (agent1_pubkey s) (agent2_pubkey s) eid)
   else mret (false, s)).
Proof.
  unfold start_game, has_onchain_capability. cbn [negb]. by rewrite andb_false_r.
Qed.

(** X17: [start_game] answers [False] for one reason only: the server's
    answer to [kdapp_start_episode] has no result in it.  The coordinator is
    then unchanged; on-chain enforcement never makes the start fail. *)
Theorem start_game_false_inv json_loads (s s' : session) (a1 a2 : pyval)
    (e : start_env) :
  start_game json_loads s a1 a2 e = Returned (false, s') ->
  s' = s /\
  exists response,
    send_mcp_request json_loads
      (rpc_start e (py_or (agent1_pubkey s) a1, py_or (agent2_pubkey s) a2))
    = Done response /\
    py_in "result" response = Returned false.
Proof.
  rewrite start_game_unfold.
  destruct (send_mcp_request json_loads _) as [response| |];
    cbn [lift mbind outcome_bind]; try discriminate.
  destruct (py_in "result" response) as [[|]| |] eqn:Hin;
    cbn [mbind outcome_bind]; try discriminate.
  - destruct (py_getitem "result" response) as [eid| |];
      cbn [mbind outcome_bind]; try discriminate.
    destruct (get_game_state json_loads _ (rpc_state e)) as [state| |];
      cbn [mbind outcome_bind]; try discriminate.
    destruct (match state with
              | PDict st => if truthy state then state_participants st else mret PNone
              | _ => mret PNone
              end) as [?| |]; cbn [mbind outcome_bind]; discriminate.
  - intros [= <-]. split; [done|]. by exists response.
Qed.

Lemma start_game_false_inv_witness :
  session0 true = session0 true /\
  exists response,
    send_mcp_request start_loads
      (rpc_start (StartEnv (answer_with line_only_error)
                           (answer_with line_txid_result))
                 (py_or PNone (PStr "a1"), py_or PNone (PStr "a2")))
    = Done response /\
    py_in "result" response = Returned false.
Proof.
  apply (start_game_false_inv start_loads (session0 true) (session0 true)
           (PStr "a1") (PStr "a2")
           (StartEnv (answer_with line_only_error) (answer_with line_txid_result))).
  vm_compute. reflexivity.
Defined.

Lemma py_in_dict (key : string) (d : gmap string pyval) (v : pyval) :
  d !! key = Some v ->
  py_in key (PDict d) = Returned true /\ py_getitem key (PDict d) = Returned v.
Proof.
  intros H. unfold py_in, py_getitem. by rewrite (has_key_true _ _ _ H), H.
Qed.

(** X18: [start_game] takes any dict with a result field as a started
    episode, also when it carries an error field beside it and also when
    the result is null, and stores that result as the episode id; the same
    response to a move would be refused by [execute_move] because of its
    error field.  The state query that follows cannot turn the answer into
    [False]. *)
Theorem start_game_result_field json_loads (s : session) (a1 a2 : pyval)
    (e : start_env) (resp : gmap string pyval) (eid state : pyval) :
  send_mcp_request json_loads
    (rpc_start e (py_or (agent1_pubkey s) a1, py_or (agent2_pubkey s) a2))
  = Done (PDict resp) ->
  resp !! "result" = Some eid ->
  get_game_state json_loads
    (Session (coord s) (agent1_pubkey s) (agent2_pubkey s) eid) (rpc_state e)
  = Returned state ->
  (forall st, state = PDict st ->
     truthy (dict_get "participants" st) = true \/
     st !! "metadata" = None \/
     exists md, st !! "metadata" = Some (PDict md)) ->
  start_game json_loads s a1 a2 e
  = Returned (true, Session (coord s) (agent1_pubkey s) (agent2_pubkey s) eid)
  /\ (forall err require_onchain, resp !! "error" = Some err ->
        move_accepted require_onchain (PDict resp) = false).
Proof.
  intros Hsend Hres Hstate Hmeta. split.
  - rewrite start_game_unfold, Hsend. cbn [lift mbind outcome_bind].
    destruct (py_in_dict "result" resp eid Hres) as [-> ->].
    cbn [mbind outcome_bind]. rewrite Hstate. cbn [mbind outcome_bind].
    destruct state as [| | | | | |st]; try reflexivity.
    destruct (truthy (PDict st)); [|reflexivity].
    unfold state_participants.
    destruct (Hmeta st eq_refl) as [Hp | [Hm | [md Hm]]].
    + by rewrite Hp.
    + rewrite Hm. by destruct (truthy (dict_get "participants" st)).
    + rewrite Hm. by destruct (truthy (dict_get "participants" st)).
  - intros err ro Herr. unfold move_accepted.
    by rewrite (has_key_true _ _ _ Herr).
Qed.

Lemma start_game_result_field_witness :
  start_game start_loads (session0 true) (PStr "a1") (PStr "a2")
    (StartEnv (answer_with line_error_and_result) (answer_with line_only_error))
  = Returned (true, Session (initial_coordinator true) PNone PNone
                            (PStr "9f3c2ab47d10"))
  /\ (forall err require_onchain, resp_error_and_result !! "error" = Some err ->
        move_accepted require_onchain (PDict resp_error_and_result) = false).
Proof.
  apply (start_game_result_field start_loads (session0 true) (PStr "a1") (PStr "a2")
           (StartEnv (answer_with line_error_and_result) (answer_with line_only_error))
           resp_error_and_result (PStr "9f3c2ab47d10") PNone).
  - vm_compute. reflexivity.
  - vm_compute. reflexivity.
  - vm_compute. reflexivity.
  - discriminate.
Defined.

(** X19: an answer to [kdapp_start_episode] that is not a dict never
    starts a game, and unless it is a list or a string without the word
    result it makes [start_game] raise [TypeError]: a null, a number or a
    boolean at the membership test, a list or a string that has the word at
    the subscript.  [execute_move] answers [False] on any such response. *)
Theorem start_game_not_a_dict json_loads (s : session) (a1 a2 : pyval)
    (e : start_env) (response : pyval) :
  send_mcp_request json_loads
    (rpc_start e (py_or (agent1_pubkey s) a1, py_or (agent2_pubkey s) a2))
  = Done response ->
  (forall d, response <> PDict d) ->
  (py_in "result" response = Returned false /\
   start_game json_loads s a1 a2 e = Returned (false, s)
   \/ py_in "result" response <> Returned false /\
      start_game json_loads s a1 a2 e = Thrown TypeError)
  /\ (forall require_onchain, move_accepted require_onchain response = false).
Proof.
  intros Hsend Hnd.
  split; [|intros ro; destruct response as [| | | | | |d]; try done;
            by destruct (Hnd d)].
  rewrite start_game_unfold, Hsend. cbn [lift mbind outcome_bind].
  destruct response as [| | | | str|l|d]; try (right; split; [discriminate | done]).
  - cbn [py_in]. destruct (contains str "result"); [right | left]; by split.
  - cbn [py_in].
    destruct (existsb _ l); [right | left]; by split.
  - by destruct (Hnd d).
Qed.

Lemma start_game_not_a_dict_witness :
  (py_in "result" PNone = Returned false /\
   start_game start_loads (session0 false) (PStr "a1") (PStr "a2")
     (StartEnv (answer_with "null") (answer_with line_txid_result))
   = Returned (false, session0 false)
   \/ py_in "result" PNone <> Returned false /\
      start_game start_loads (session0 false) (PStr "a1") (PStr "a2")
        (StartEnv (answer_with "null") (answer_with line_txid_result))
      = Thrown TypeError)
  /\ (forall require_onchain, move_accepted require_onchain PNone = false).
Proof.
  apply (start_game_not_a_dict start_loads (session0 false) (PStr "a1") (PStr "a2")
           (StartEnv (answer_with "null") (answer_with line_txid_result)) PNone).
  - vm_compute. reflexivity.
  - discriminate.
Defined.

(** X20: after the episode has been started, a state whose participants
    field is missing or falsy and whose metadata field is present and not a
    dict (a string, a null) makes [start_game] raise [AttributeError]
    instead of answering. *)
Theorem start_game_metadata_not_dict json_loads (s : session) (a1 a2 : pyval)
    (e : start_env) (resp st : gmap string pyval) (eid md : pyval) :
  send_mcp_request json_loads
    (rpc_start e (py_or (agent1_pubkey s) a1, py_or (agent2_pubkey s) a2))
  = Done (PDict resp) ->
  resp !! "result" = Some eid ->
  get_game_state json_loads
    (Session (coord s) (agent1_pubkey s) (agent2_pubkey s) eid) (rpc_state e)
  = Returned (PDict st) ->
  truthy (dict_get "participants" st) = false ->
  st !! "metadata" = Some md ->
  (forall d, md <> PDict d) ->
  start_game json_loads s a1 a2 e = Thrown AttributeError.
Proof.
  intros Hsend Hres Hstate Hp Hm Hmd.
  rewrite start_game_unfold, Hsend. cbn [lift mbind outcome_bind].
  destruct (py_in_dict "result" resp eid Hres) as [-> ->].
  cbn [mbind outcome_bind]. rewrite Hstate. cbn [mbind outcome_bind].
  assert (truthy (PDict st) = true) as ->.
  { cbn [truthy]. case_bool_decide as Hst; [|done].
    subst st. by rewrite lookup_empty in Hm. }
  unfold state_participants. rewrite Hp, Hm. unfold default. cbn [from_option id].
  destruct md as [| | | | | |d]; try reflexivity. by destruct (Hmd d).
Qed.

Lemma start_game_metadata_not_dict_witness :
  start_game start_loads (session0 true) (PStr "a1") (PStr "a2")
    (StartEnv (answer_with line_txid_result) (answer_with line_state_metadata))
  = Thrown AttributeError.
Proof.
  apply (start_game_metadata_not_dict start_loads (session0 true)
           (PStr "a1") (PStr "a2")
           (StartEnv (answer_with line_txid_result) (answer_with line_state_metadata))
           resp_txid_result {[ "metadata" := PStr "pending" ]}
           (PDict {[ "txid" := PStr "9f3c2ab47d10" ]}) (PStr "pending")).
  - vm_compute. reflexivity.
  - vm_compute. reflexivity.
  - vm_compute. reflexivity.
  - vm_compute. reflexivity.
  - vm_compute. reflexivity.
  - discriminate.
Defined.

(** ** play_game *)

Lemma start_game_result json_loads (s s1 : session) (a1 a2 : pyval)
    (e : start_env) (started : bool) :
  start_game json_loads s a1 a2 e = Returned (started, s1) ->
  coord s1 = coord s /\ (started = false -> s1 = s).
Proof.
  rewrite start_game_unfold.
  destruct (send_mcp_request json_loads _) as [response| |];
    cbn [lift mbind outcome_bind]; try discriminate.
  destruct (py_in "result" response) as [[|]| |];
    cbn [mbind outcome_bind]; try discriminate.
  - destruct (py_getitem "result" response) as [eid| |];
      cbn [mbind outcome_bind]; try discriminate.
    destruct (get_game_state json_loads _ (rpc_state e)) as [state| |];
      cbn [mbind outcome_bind]; try discriminate.
    destruct (match state with
              | PDict st => if truthy state then state_participants st else mret PNone
              | _ => mret PNone
              end) as [?| |]; cbn [mbind outcome_bind]; try discriminate.
    intros [= <- <-]. by split.
  - intros [= <- <-]. by split.
Qed.

Lemma cell_count (c : cell) :
  ((if bool_decide (c = Some X) then 1 else 0)
   + (if bool_decide (c = Some O) then 1 else 0) <= 1)%nat /\
  (((if bool_decide (c = Some X) then 1 else 0)
    + (if bool_decide (c = Some O) then 1 else 0) = 1)%nat ->
   exists m, c = Some m).
Proof.
  destruct c as [[|]|]; count_known; (split; [lia|]); intros H;
    first [by exists X | by exists O | lia].
Qed.

(** A 3x3 board that carries nine marks has no empty cell. *)
Lemma nine_marks_all_filled (b : board) :
  board3x3 b ->
  (9 <= count_mark X b + count_mark O b)%nat ->
  all_filled b.
Proof.
  intros Hb Hn.
  apply board3x3_grid in Hb as (c00&c01&c02&c10&c11&c12&c20&c21&c22&->).
  unfold count_mark in Hn. cbn [grid concat app sum_list_with] in Hn.
  destruct (cell_count c00) as [? H00], (cell_count c01) as [? H01],
    (cell_count c02) as [? H02], (cell_count c10) as [? H10],
    (cell_count c11) as [? H11], (cell_count c12) as [? H12],
    (cell_count c20) as [? H20], (cell_count c21) as [? H21],
    (cell_count c22) as [? H22].
  apply Forall_forall. intros ij Hin. apply all_cells_inv in Hin. unfold filled.
  destruct Hin as [-> | [-> | [-> | [-> | [-> | [-> | [-> | [-> | ->]]]]]]]];
    cbn [fst snd].
  - destruct H00 as [m ->]; [lia | by exists m].
  - destruct H01 as [m ->]; [lia | by exists m].
  - destruct H02 as [m ->]; [lia | by exists m].
  - destruct H10 as [m ->]; [lia | by exists m].
  - destruct H11 as [m ->]; [lia | by exists m].
  - destruct H12 as [m ->]; [lia | by exists m].
  - destruct H20 as [m ->]; [lia | by exists m].
  - destruct H21 as [m ->]; [lia | by exists m].
  - destruct H22 as [m ->]; [lia | by exists m].
Qed.

Lemma check_winner_winner_spec (b : board) (r : option verdict) :
  board3x3 b -> check_winner b = Done r -> winner_spec b r.
Proof.
  intros Hb Hw. apply board3x3_grid in Hb as (c00&c01&c02&c10&c11&c12&c20&c21&c22&->).
  pose proof (check_winner_grid c00 c01 c02 c10 c11 c12 c20 c21 c22) as H.
  unfold check_winner_ok in H. by rewrite Hw in H.
Qed.

(** X21: the last line of [play_game], for a coordinator as [__init__]
    leaves it.  Failed to start: nothing was changed and no move was made.
    A player wins: that player holds a line of the final board.  Draw: the
    final board is full and no line is held.  No winner: the final board has
    an empty cell and no held line, and the loop was left with the failure
    counter at 3, that is after three refused turns in a row. *)
Theorem play_game_report json_loads (s s2 : session) (a1 a2 : pyval)
    (e : start_env) (envs : list ply_env) (r : report) :
  game_invariant (coord s) initial_vars ->
  play_game json_loads s a1 a2 e envs = Returned (r, s2) ->
  match r with
  | FailedToStart => s2 = s
  | PlayerWins m => has_line (game_board (coord s2)) m
  | GameDraw =>
      all_filled (game_board (coord s2)) /\
      ~ exists m, has_line (game_board (coord s2)) m
  | NoWinner =>
      ~ all_filled (game_board (coord s2)) /\
      (~ exists m, has_line (game_board (coord s2)) m) /\
      exists v', game_loop json_loads envs (coord s) initial_vars
                 = Done (coord s2, v') /\
                 consecutive_failures v' = max_consecutive_failures
  end.
Proof.
  intros Hinv. unfold play_game.
  destruct (start_game json_loads s a1 a2 e) as [[started s1]| |] eqn:Hstart;
    cbn [mbind outcome_bind]; try discriminate.
  destruct (start_game_result _ _ _ _ _ _ _ Hstart) as [Hcoord Hfalse].
  destruct started; cbn [negb].
  2: { intros [= <- <-]. by apply Hfalse. }
  rewrite Hcoord.
  destruct (game_loop json_loads envs (coord s) initial_vars) as [[c v']| |] eqn:Hloop;
    cbn [lift mbind outcome_bind]; try discriminate.
  destruct (game_loop_final json_loads envs _ _ _ _ Hinv Hloop)
    as [(Hb & Htotal & _ & Hcf) Hfin].
  destruct (check_winner (game_board c)) as [w| |] eqn:Hw;
    cbn [lift mbind outcome_bind]; try discriminate.
  destruct (check_winner_winner_spec _ _ Hb Hw) as (Hwin & _ & _ & Hdraw & Hnone).
  intros [= <- <-]. cbn [coord].
  destruct w as [[m|]|].
  - by apply Hwin.
  - by apply Hdraw.
  - destruct (proj1 Hnone eq_refl) as [Hnf Hnl]. split; [done|]. split; [done|].
    exists v'. split; [done|].
    destruct Hfin as [Hm | [Hf | [w Hw']]].
    + exfalso. apply Hnf. apply nine_marks_all_filled; [done|].
      unfold max_moves in Hm. lia.
    + lia.
    + rewrite Hw in Hw'. discriminate.
Qed.

Lemma play_game_report_witness :
  ~ all_filled empty_board /\
  (~ exists m, has_line empty_board m) /\
  exists v', game_loop start_loads [env_refusing; env_refusing; env_refusing]
               (coord (session0 true)) initial_vars
             = Done (initial_coordinator true, v') /\
             consecutive_failures v' = max_consecutive_failures.
Proof.
  apply (play_game_report start_loads (session0 true)
           (Session (initial_coordinator true) PNone PNone (PStr "9f3c2ab47d10"))
           (PStr "a1") (PStr "a2")
           (StartEnv (answer_with line_error_and_result) (answer_with line_only_error))
           [env_refusing; env_refusing; env_refusing] NoWinner).
  - apply game_invariant_initial.
  - vm_compute. reflexivity.
Defined.

(** ** The address of the agents' host *)

Lemma no_space_snoc (t : string) (a : ascii) :
  no_space (t ++ String a EmptyString) = no_space t && negb (is_space a).
Proof.
  induction t as [|x t IH].
  - rewrite string_app_nil_l. cbn [no_space]. by rewrite andb_true_r.
  - rewrite string_app_cons. cbn [no_space]. rewrite IH. by rewrite andb_assoc.
Qed.

Lemma snoc_not_empty (t : string) (a : ascii) :
  t ++ String a EmptyString <> EmptyString.
Proof. by destruct t. Qed.

(** Every piece of [split()] is a non-empty run without white space. *)
Lemma split_from_tokens (tok : option string) (s : string) :
  (forall t, tok = Some t -> t <> EmptyString /\ no_space t = true) ->
  Forall (fun t => t <> EmptyString /\ no_space t = true) (split_from tok s).
Proof.
  revert tok. induction s as [|a s IH]; intros tok Htok; cbn [split_from].
  - destruct tok as [t|]; [|constructor]. constructor; [by apply Htok | constructor].
  - destruct (is_space a) eqn:Ha.
    + destruct tok as [t|].
      * constructor; [by apply Htok|]. apply IH. discriminate.
      * apply IH. discriminate.
    + apply IH. intros t [= <-]. split; [apply snoc_not_empty|].
      rewrite no_space_snoc, Ha, andb_true_r.
      destruct tok as [t|]; [by apply Htok | done].
Qed.

Lemma scan_resolv_skip (pre rest : list string) :
  Forall (fun l => String.prefix "nameserver" l = false) pre ->
  scan_resolv (pre ++ rest)%list = scan_resolv rest.
Proof.
  induction 1 as [|l pre Hl _ IH]; [done|].
  cbn [app scan_resolv]. by rewrite Hl.
Qed.

(** X22: the first line of resolv.conf that starts with the word nameserver
    decides alone: its second field is the address, and when it has no
    second field the address is 127.0.0.1, whatever the lines after it hold.
    Without such a line, or without the file, the address is 127.0.0.1. *)
Theorem get_windows_host_ip_first_nameserver (pre post : list string)
    (line : string) :
  Forall (fun l => String.prefix "nameserver" l = false) pre ->
  (String.prefix "nameserver" line = true ->
   get_windows_host_ip (Some (pre ++ line :: post)%list)
   = match py_split line with
     | _ :: address :: _ => address
     | _ => localhost
     end)
  /\ get_windows_host_ip (Some pre) = localhost
  /\ get_windows_host_ip None = localhost.
Proof.
  intros Hpre. split; [|split; [|done]].
  - intros Hline. cbn [get_windows_host_ip]. rewrite scan_resolv_skip by done.
    cbn [scan_resolv]. by rewrite Hline.
  - cbn [get_windows_host_ip]. rewrite <- (app_nil_r pre).
    by rewrite scan_resolv_skip.
Qed.

Lemma get_windows_host_ip_first_nameserver_witness :
  get_windows_host_ip (Some resolv_conf_sample) = localhost.
Proof.
  refine (proj1 (get_windows_host_ip_first_nameserver
            ["# generated by WSL" ++ String "010" EmptyString]
            ["nameserver 172.29.96.1" ++ String "010" EmptyString]
            ("nameserver" ++ String "010" EmptyString) _) _).
  - constructor; [reflexivity | constructor].
  - reflexivity.
Defined.

(** X23: whatever the file holds, the address returned is not empty and
    has no white space in it, so the two agent URLs built from it have a
    host part. *)
Theorem get_windows_host_ip_well_formed (file : option (list string)) :
  get_windows_host_ip file <> EmptyString /\
  no_space (get_windows_host_ip file) = true.
Proof.
  destruct file as [lines|]; [|by split]. cbn [get_windows_host_ip].
  induction lines as [|line lines IH]; [by split|]. cbn [scan_resolv].
  destruct (String.prefix "nameserver" line); [|exact IH].
  pose proof (split_from_tokens None line) as Htok.
  unfold py_split. destruct (split_from None line) as [|t0 [|t1 rest]];
    [by split | by split|].
  assert (forall t, @None string = Some t -> t <> EmptyString /\ no_space t = true)
    as Hnone by discriminate.
  specialize (Htok Hnone).
  apply Forall_cons in Htok as [_ Htok]. by apply Forall_cons in Htok as [Ht1 _].
Qed.

(** ** What a turn submits *)

(** X24: in a turn on a 3x3 board without winner or draw, both moves the
    coordinator may submit, the first one and the fallback, are empty cells
    of the board, whatever the agent answered; without a usable answer the
    first move is the one of [get_default_move]. *)
Theorem turn_submits_empty_cells (e : ply_env) (c : coordinator) :
  board3x3 (game_board c) ->
  check_winner (game_board c) = Done None ->
  exists mv fb,
    get_move_from_agent (agent_reply e) (rnd_agent e) (game_board c) = Done mv /\
    fallback_move (rnd_fallback e) (game_board c) mv.1 mv.2 = Done fb /\
    (mv ∈ all_cells /\ empty_at (game_board c) mv) /\
    (fb ∈ all_cells /\ empty_at (game_board c) fb) /\
    (agent_reply e = None ->
     get_default_move (rnd_agent e) (game_board c) = Done mv).
Proof.
  intros Hb Hw.
  destruct (loop_body_run_moves (fun _ => None) e c initial_vars Hb Hw)
    as (mv & fb & _ & _ & Hmv & Hfb & _ & _ & Hget & Hfall & _).
  exists mv, fb. split; [done|]. split; [done|]. split; [done|]. split; [done|].
  intros Hreply. unfold get_move_from_agent in Hget. by rewrite Hreply in Hget.
Qed.

Lemma turn_submits_empty_cells_witness :
  exists mv fb,
    get_move_from_agent None 0 board_scenario = Done mv /\
    fallback_move 0 board_scenario mv.1 mv.2 = Done fb /\
    (mv ∈ all_cells /\ empty_at board_scenario mv) /\
    (fb ∈ all_cells /\ empty_at board_scenario fb) /\
    (@None (option Z * option Z) = None ->
     get_default_move 0 board_scenario = Done mv).
Proof.
  apply (turn_submits_empty_cells
           (PlyEnv None 0 server_gone 0 server_gone)
           (Coordinator board_scenario X true)).
  - apply grid_board3x3.
  - reflexivity.
Defined.

Lemma tester_reader_extends_witness :
  tester_send_mcp_request sample_loads
    (server_printing line_txid_result (Command X 0 0 "agent1"))
  = Done (PDict resp_txid_result).
Proof.
  apply (proj1 (tester_reader_extends sample_loads
                  (server_printing line_txid_result (Command X 0 0 "agent1")))).
  vm_compute. reflexivity.
Defined.

Lemma loop_body_fills_empty_cell_witness :
  (Coordinator (grid None None None None (Some X) None None None None) O true
   = initial_coordinator true /\ move_count (LoopVars 1 0 (Some (1, 1))) = 0%nat)
  \/ (exists ij,
        ij ∈ all_cells /\ empty_at empty_board ij /\
        update_board empty_board ij.1 ij.2 X
        = Done (grid None None None None (Some X) None None None None) /\
        board_get (grid None None None None (Some X) None None None None) ij.1 ij.2
        = Done (Some X) /\
        (forall kl, kl ∈ all_cells -> kl <> ij ->
           board_get (grid None None None None (Some X) None None None None) kl.1 kl.2
           = board_get empty_board kl.1 kl.2) /\
        last_move (LoopVars 1 0 (Some (1, 1))) = Some ij /\
        move_count (LoopVars 1 0 (Some (1, 1))) = 1%nat).
Proof.
  apply (loop_body_fills_empty_cell sample_loads env_accepting
           (initial_coordinator true)
           (Coordinator (grid None None None None (Some X) None None None None) O true)
           initial_vars (LoopVars 1 0 (Some (1, 1)))).
  - apply grid_board3x3.
  - vm_compute. reflexivity.
Defined.

(** * The deadline and the failure counter, on the code *)

(** ** The deadline of send_mcp_request and a read that blocks *)

(** C5, on the code: the deadline is tested before each read and never
    during one.  A server that prints its first line, a JSON line, only
    after [arrival] seconds (seven, or an hour) gets that line returned as
    the response: no [TimeoutError], although no line had decoded when the
    five seconds were over.  A server that prints nothing and keeps its
    output open leaves the call in its first read: it neither returns nor
    raises, whatever [json.loads] does. *)
Theorem send_mcp_request_blocked_read (arrival : Q) :
  send_mcp_request sample_loads
    (blocking_turns [(arrival, line_txid_result ++ String "010" EmptyString)])
  = Done (PDict resp_txid_result)
  /\ (forall json_loads, send_mcp_request json_loads (blocking_turns []) = Waiting).
Proof.
  split; [|reflexivity].
  unfold blocking_turns. cbn [blocking_turns_from send_mcp_request].
  change (Qle_bool 0 5) with true. cbn [negb].
  change (String.eqb (line_txid_result ++ String "010" EmptyString) EmptyString)
    with false. cbv iota.
  change (sample_loads (py_strip (line_txid_result ++ String "010" EmptyString)))
    with (Some (PDict resp_txid_result)).
  reflexivity.
Qed.

(** A line that arrives late is returned by the reader whatever the
    decoder and the line are, as long as the line decodes. *)
Lemma send_mcp_request_late_line json_loads (arrival : Q) (line : string)
    (parsed : pyval) :
  line <> EmptyString ->
  json_loads (py_strip line) = Some parsed ->
  send_mcp_request json_loads (blocking_turns [(arrival, line)]) = Done parsed.
Proof.
  intros Hline Hp. unfold blocking_turns.
  cbn [blocking_turns_from send_mcp_request].
  change (Qle_bool 0 5) with true. cbn [negb].
  destruct (String.eqb_spec line EmptyString); [done|]. by rewrite Hp.
Qed.

(** ** The failure counter and a refused fallback *)

(** C3, the claim as written fails: in the first turn on the empty board
    with a server that refuses everything, the move (1, 1) and the fallback
    (0, 0) are both refused and the counter goes from 0 to 1, not to 2; and
    after two such turns, that is four refused submissions, the loop is
    still running. *)
Lemma refused_fallback_not_counted :
  get_move_from_agent None 0 empty_board = Done (1, 1) /\
  fallback_move 0 empty_board 1 1 = Done (0, 0) /\
  first_submission sample_loads env_refusing (initial_coordinator true) (1, 1)
  = Done false /\
  second_submission sample_loads env_refusing (initial_coordinator true) (0, 0)
  = Done false /\
  loop_body sample_loads env_refusing (initial_coordinator true) initial_vars
  = Done (Next (initial_coordinator true) (LoopVars 0 1 (Some (0, 0)))) /\
  consecutive_failures (LoopVars 0 1 (Some (0, 0))) <> 2%nat /\
  game_loop sample_loads [env_refusing; env_refusing]
    (initial_coordinator true) initial_vars = Waiting.
Proof.
  split_and!; try (vm_compute; reflexivity). discriminate.
Qed.

(** ** What the agents contribute *)

Example re_search_greedy :
  re_search "move \{a\} b \} c" = Some "\{a\} b \}"
  /\ re_search ("x \{a" ++ String "010" "b\} \{c\}") = Some "\{c\}"
  /\ re_search "{row: 1, col: 1}" = None.
Proof. split_and!; reflexivity. Qed.

Lemma re_search_backslash (content matched : string) :
  re_search content = Some matched -> exists rest, matched = String "\" rest.
Proof.
  induction content as [|a content IH]; cbn [re_search]; [discriminate|].
  destruct (if String.prefix "\{" (String a content)
            then match content with
                 | String _ rest => match_to_brace rest
                 | EmptyString => None
                 end
            else None) as [m|].
  - intros [= <-]. by eexists.
  - exact IH.
Qed.

(** X25: the answer of an agent is never used.  The pattern searched in the
    text asks for a backslash before each brace, so whatever it finds
    begins with a backslash, and [json.loads] refuses every text that
    begins with a backslash; the exception is caught and the move is the
    one of [get_default_move], for every text and every board. *)
Theorem agent_answer_never_used json_loads py_int (content : option string)
    (rnd : nat) (b : board) :
  (forall s, json_loads (String "\" s) = None) ->
  get_move_from_agent1 json_loads py_int content rnd b = get_default_move rnd b.
Proof.
  intros Hjson. unfold get_move_from_agent1, agent_proposal.
  destruct content as [text|]; [|reflexivity].
  destruct (re_search text) as [matched|] eqn:Hm; [|reflexivity].
  destruct (re_search_backslash _ _ Hm) as [rest ->].
  by rewrite Hjson.
Qed.

Lemma sample_loads_backslash (s : string) : sample_loads (String "\" s) = None.
Proof. reflexivity. Qed.

Lemma agent_answer_never_used_witness :
  get_move_from_agent1 sample_loads sample_int
    (Some "I take the corner: \{row: 0, col: 2\}") 0 board_scenario
  = get_default_move 0 board_scenario.
Proof.
  apply (agent_answer_never_used sample_loads sample_int
           (Some "I take the corner: \{row: 0, col: 2\}") 0 board_scenario).
  exact sample_loads_backslash.
Defined.
